(** * Read-API client and response transformers of compressed-nfts

    A shallow embedding of [src/scripts/createAndMint.ts], lines 301-519:
    the [ReadApiError] class, the three response transformers and the
    [WrapperConnection] class with its four JSON-RPC methods; and of the
    helpers of lines 127-259 that keep keys in files and ask for airdrops.

    JavaScript values are an inductive type, objects are finite maps from
    property names to values, exceptions are an explicit completion type,
    and the network is a function from the HTTP request to what [fetch]
    does; every call of [fetch] is appended to a log, so that "no network
    call" is a statement about that log.  [async]/[await] is sequential
    here: each method awaits every promise it creates. *)

From Stdlib Require Import ZArith NArith List Bool Lia.
From Stdlib Require Import Strings.String Strings.Ascii Strings.Byte.
From Stdlib Require Import Numbers.DecimalString.
From stdpp Require Import base option gmap strings list.

Local Open Scope string_scope.
Local Open Scope Z_scope.

(* ===================================================================== *)
(** ** JavaScript values *)
(* ===================================================================== *)

(** Numbers are kept to the integers: no claim depends on a fraction, and
    the only numbers the client builds itself are [1] and the HTTP status. *)
#[warnings="-register-all"]
Inductive JsValue : Type :=
| JUndefined
| JNull
| JBool (b : bool)
| JNum (n : Z)
| JStr (s : string)
| JArr (items : list JsValue)
| JObj (fields : gmap string JsValue).

(** [typeof v === "number"] *)
Definition is_number (v : JsValue) : bool :=
  match v with JNum _ => true | _ => false end.

(** ToBoolean: [undefined], [null], [false], [0] and [""] are falsy. *)
Definition truthy (v : JsValue) : bool :=
  match v with
  | JUndefined | JNull => false
  | JBool b => b
  | JNum n => negb (n =? 0)
  | JStr s => negb (String.eqb s "")
  | JArr _ | JObj _ => true
  end.

(** [a || b] *)
Definition js_or (a b : JsValue) : JsValue := if truthy a then a else b.

(** [a ?? b] *)
Definition nullish (v : JsValue) : bool :=
  match v with JUndefined | JNull => true | _ => false end.

Definition coalesce (a b : JsValue) : JsValue := if nullish a then b else a.

(** [o.k] on an object: a property that is absent reads as [undefined]. *)
Definition prop (o : gmap string JsValue) (k : string) : JsValue :=
  default JUndefined (o !! k).

(* ===================================================================== *)
(** ** Errors and completions *)
(* ===================================================================== *)

Inductive ErrorClass : Type :=
| ClsError          (* new Error(...) *)
| ClsTypeError
| ClsSyntaxError
| ClsReadApiError.  (* name = "ReadApiError", lines 336-341 *)

(** An [Error] object: its class, the message given to the constructor and
    the optional cause.  [MetaplexError] decorates the message with the
    source ("rpc") and the cause; that formatting belongs to the SDK and is
    left out. *)
#[warnings="-register-all"]
Inductive JsError : Type :=
| MkError (cls : ErrorClass) (message : string) (cause : option JsError).

Definition Error (message : string) : JsError := MkError ClsError message None.
Definition TypeError (message : string) : JsError := MkError ClsTypeError message None.
Definition ReadApiError (message : string) (cause : option JsError) : JsError :=
  MkError ClsReadApiError message cause.

Definition error_class (e : JsError) : ErrorClass :=
  match e with MkError c _ _ => c end.
Definition error_message (e : JsError) : string :=
  match e with MkError _ m _ => m end.
Definition error_cause (e : JsError) : option JsError :=
  match e with MkError _ _ c => c end.

Definition is_ReadApiError (e : JsError) : bool :=
  match error_class e with ClsReadApiError => true | _ => false end.

(** What a [throw] or a rejected promise carries: an [Error] instance or
    any other value. *)
Inductive Thrown : Type :=
| ThrownError (e : JsError)
| ThrownValue (v : JsValue).

(** [e instanceof Error ? e : undefined] *)
Definition instance_of_Error (t : Thrown) : option JsError :=
  match t with ThrownError e => Some e | ThrownValue _ => None end.

Inductive Completion (A : Type) : Type :=
| Normal (a : A)
| Throw (t : Thrown).
Arguments Normal {A} a.
Arguments Throw {A} t.

Definition cbind {A B} (c : Completion A) (k : A -> Completion B) : Completion B :=
  match c with Normal a => k a | Throw t => Throw t end.

(** Reading a named property of an arbitrary value, as the destructuring
    [const { result } = v] does: [null] and [undefined] cannot be
    destructured (TypeError); primitives and arrays have no own property of
    a non-index name such as "result". *)
Definition get_property (v : JsValue) (k : string) : Completion JsValue :=
  match v with
  | JObj o => Normal (prop o k)
  | JUndefined | JNull =>
      Throw (ThrownError (TypeError ("Cannot destructure property '" +:+ k +:+ "'")))
  | JBool _ | JNum _ | JStr _ | JArr _ => Normal JUndefined
  end.

(* ===================================================================== *)
(** ** The network *)
(* ===================================================================== *)

(** The argument of [fetch]: the URL and the [init] object of lines 432-443.
    [body] is the value handed to [JSON.stringify]. *)
Record HttpRequest : Type := {
  url : string;
  http_method : string;
  headers : list (string * string);
  body : JsValue;
}.

(** The [Response] of a settled [fetch]: the status, and what
    [response.json()] settles to (a parsed value, or a rejection when the
    body is not JSON). *)
Record HttpResponse : Type := {
  status : Z;
  json : Completion JsValue;
}.

(** [response.ok] is the Fetch standard's "status in 200..299". *)
Definition ok (r : HttpResponse) : bool :=
  (200 <=? status r) && (status r <=? 299).

(** [`HTTP ${response.status}`] *)
Definition http_status_message (r : HttpResponse) : string :=
  "HTTP " +:+ NilZero.string_of_int (Z.to_int (status r)).

(** [RpcRequest<T>], lines 325-329 *)
Record RpcRequest : Type := {
  method : string;
  id : option string;
  params : JsValue;
}.

(** A client computation runs against the log of the [fetch] calls made so
    far and returns its completion with the extended log. *)
Definition Client (A : Type) : Type :=
  list HttpRequest -> Completion A * list HttpRequest.

Definition ret {A} (a : A) : Client A := fun log => (Normal a, log).

Definition throw {A} (e : JsError) : Client A :=
  fun log => (Throw (ThrownError e), log).

Definition lift {A} (c : Completion A) : Client A := fun log => (c, log).

Definition bind {A B} (c : Client A) (k : A -> Client B) : Client B :=
  fun log =>
    match c log with
    | (Normal a, log') => k a log'
    | (Throw t, log') => (Throw t, log')
    end.

Notation "'let*' x := c 'in' k" := (bind c (fun x => k))
  (at level 10, x name, c at level 100, k at level 200).

(** [try { body } catch (e) { handler e }] around a pure body. *)
Definition try_catch {A} (c : Completion A) (handler : Thrown -> Completion A)
  : Completion A :=
  match c with Normal a => Normal a | Throw t => handler t end.

(* ===================================================================== *)
(** ** WrapperConnection, lines 423-519 *)
(* ===================================================================== *)

Section WrapperConnection.

(** The SDK's [PublicKey] with its base-58 printer. *)
Context {PublicKey : Type}.
Variable toBase58 : PublicKey -> string.

(** [this.rpcEndpoint], fixed by the constructor. *)
Variable rpcEndpoint : string.

(** The platform's [fetch]: what it settles to for a request, given the
    requests made before it.  [Throw] is a rejected promise. *)
Variable fetch : list HttpRequest -> HttpRequest -> Completion HttpResponse.

(** lines 428-453 *)
Definition callReadApi (request : RpcRequest) : Client JsValue :=
  fun log =>
    let init := {|
      url := rpcEndpoint;
      http_method := "POST";
      headers := [("Content-Type", "application/json")];
      body := JObj (<["jsonrpc" := JStr "2.0"]>
                   (<["method" := JStr (method request)]>
                   (<["id" := JStr (default "rpd-op-123" (id request))]>
                   (<["params" := params request]> ∅))));
    |} in
    (try_catch
       (cbind (fetch log init) (fun response =>
          if negb (ok response)
          then Throw (ThrownError (Error (http_status_message response)))
          else json response))
       (fun e => Throw (ThrownError
          (ReadApiError "Failed to call ReadAPI" (instance_of_Error e)))),
     (log ++ [init])%list).

(** lines 455-461 *)
Definition validatePagination (page before after : JsValue) : Completion unit :=
  if is_number page && truthy (js_or before after)
  then Throw (ThrownError (ReadApiError
         "Pagination Error. Only one pagination parameter supported per query."
         None))
  else Normal tt.

(** lines 463-471 *)
Definition getAsset (assetId : PublicKey) : Client JsValue :=
  let* response := callReadApi {|
      method := "getAsset";
      id := None;
      params := JObj {[ "id" := JStr (toBase58 assetId) ]};
    |} in
  let* result := lift (get_property response "result") in
  if negb (truthy result) then throw (ReadApiError "No asset returned" None)
  else ret result.

(** lines 473-481 *)
Definition getAssetProof (assetId : PublicKey) : Client JsValue :=
  let* response := callReadApi {|
      method := "getAssetProof";
      id := None;
      params := JObj {[ "id" := JStr (toBase58 assetId) ]};
    |} in
  let* result := lift (get_property response "result") in
  if negb (truthy result) then throw (ReadApiError "No asset proof returned" None)
  else ret result.

(** lines 483-500 *)
Definition getAssetsByGroup (input : gmap string JsValue) : Client JsValue :=
  let* _ := lift (validatePagination (prop input "page") (prop input "before")
                                     (prop input "after")) in
  let* response := callReadApi {|
      method := "getAssetsByGroup";
      id := None;
      params := JObj
        (<["sortBy" := coalesce (prop input "sortBy") JNull]>
        (<["limit" := coalesce (prop input "limit") JNull]>
        (<["after" := coalesce (prop input "after") JNull]>
        (<["before" := coalesce (prop input "before") JNull]>
        (<["page" := coalesce (prop input "page") (JNum 1)]>
         input)))));
    |} in
  let* result := lift (get_property response "result") in
  if negb (truthy result) then throw (ReadApiError "No results returned" None)
  else ret result.

(** lines 502-519 *)
Definition getAssetsByOwner (input : gmap string JsValue) : Client JsValue :=
  let* _ := lift (validatePagination (prop input "page") (prop input "before")
                                     (prop input "after")) in
  let* response := callReadApi {|
      method := "getAssetsByOwner";
      id := None;
      params := JObj
        (<["sortBy" := coalesce (prop input "sortBy") JNull]>
        (<["limit" := coalesce (prop input "limit") JNull]>
        (<["after" := coalesce (prop input "after") JNull]>
        (<["before" := coalesce (prop input "before") JNull]>
        (<["page" := coalesce (prop input "page") (JNum 1)]>
         input)))));
    |} in
  let* result := lift (get_property response "result") in
  if negb (truthy result) then throw (ReadApiError "No results returned" None)
  else ret result.

End WrapperConnection.

(* ===================================================================== *)
(** ** The read-API asset *)
(* ===================================================================== *)

Notation "'let!' x := c 'in' k" := (cbind c (fun x => k))
  (at level 10, x name, c at level 100, k at level 200).

(** Modelled from the spec: the [ReadApiAsset] type is declared in
    "@/ReadApi/types", which is not among the sources.  The records below
    carry the fields the transformers read, with the shapes the spec's data
    model gives them (authorities as a list of address and scopes, grouping
    as a list of key and value, the compression block with tree and leaf
    index, supply, royalty, content, creators and the mutable flag).
    [authorities] and [content.metadata] are optional because the source
    reads them with [?.]. *)
Module ReadApi.

Record Authority : Type := { address : string; scopes : list string }.

Record Grouping : Type := { group_key : string; group_value : string }.

Record Compression : Type := { tree : string; leaf_id : Z }.

Record Supply : Type := {
  print_current_supply : Z;
  print_max_supply : Z;
  edition_nonce : option Z;
}.

Record Royalty : Type := {
  basis_points : Z;
  primary_sale_happened : bool;
}.

Record Creator : Type := {
  creator_address : string;
  share : Z;
  creator_verified : bool;
}.

Record JsonMetadata : Type := {
  name : option string;
  symbol : option string;
}.

Record Content : Type := {
  metadata : option JsonMetadata;
  json_uri : string;
}.

Record Asset : Type := {
  id : string;
  authorities : option (list Authority);
  grouping : list Grouping;
  compression : Compression;
  supply : Supply;
  royalty : Royalty;
  content : Content;
  creators : list Creator;
  mutable : bool;
}.

End ReadApi.

(* ===================================================================== *)
(** ** Byte strings handed to the SDK *)
(* ===================================================================== *)

(** [Buffer.from(s, "utf-8")] for a string of ASCII characters. *)
Definition Buffer_from_utf8 (s : string) : list byte := list_byte_of_string s.

(** bn.js, [new BN(n)] for a JavaScript number: the sign is kept apart from
    the magnitude, and a magnitude of 2^53 or more fails the constructor's
    assertion. *)
Record BN : Type := { negative : bool; magnitude : N }.

Definition new_BN (n : Z) : Completion BN :=
  if (Z.abs n <? 2 ^ 53)
  then Normal {| negative := n <? 0; magnitude := Z.abs_N n |}
  else Throw (ThrownError (Error "Assertion failed")).

(** The [length] low bytes of [n], least significant first. *)
Fixpoint le_bytes (length : nat) (n : N) : list byte :=
  match length with
  | O => []
  | S length' =>
      byte_of_ascii (ascii_of_N (n mod 256)) :: le_bytes length' (n / 256)
  end.

(** bn.js, [toArray("le", length)]: the magnitude in little-endian order,
    zero padded to [length]; fails when the magnitude needs more bytes. *)
Definition BN_toArray_le (b : BN) (length : nat) : Completion (list byte) :=
  if (magnitude b <? 256 ^ N.of_nat length)%N
  then Normal (le_bytes length (magnitude b))
  else Throw (ThrownError (Error "byte array longer than desired length")).

(** The number a little-endian byte string denotes. *)
Fixpoint le_value (bs : list byte) : N :=
  match bs with
  | [] => 0
  | b :: bs' => Byte.to_N b + 256 * le_value bs'
  end%N.

(* ===================================================================== *)
(** ** The SDK's models that the transformers build *)
(* ===================================================================== *)

Record SplTokenCurrency : Type := {
  symbol : string;
  decimals : Z;
  namespace : string;
}.

(** [amount(basisPoints, currency)] of the SDK. *)
Record Amount : Type := {
  basisPoints : Z;
  currency : SplTokenCurrency;
}.

Definition amount (basisPoints : Z) (currency : SplTokenCurrency) : Amount :=
  {| basisPoints := basisPoints; currency := currency |}.

(** [toBigNumber(value)] of the SDK is [new BN(value)]. *)
Definition toBigNumber (n : Z) : Completion BN := new_BN n.

(** The [Pda] class the source imports from "@metaplex-foundation/js"
    (line 304): a [PublicKey] that also carries the [bump] of its
    derivation.  The class has no member [data], so reading [.data] of an
    instance, as line 394 does, gives [undefined]. *)
Module SdkPda.
Record t {PublicKey : Type} : Type := {
  key : PublicKey;
  bump : Z;
}.
Arguments t : clear implicits.
Definition data {PublicKey : Type} (pda : t PublicKey) : JsValue := JUndefined.
End SdkPda.

Inductive TokenStandard : Type :=
| NonFungible
| FungibleAsset
| Fungible
| NonFungibleEdition
| ProgrammableNonFungible.

Module NftEdition.
Record t {PublicKey : Type} : Type := {
  model : string;
  isOriginal : bool;
  address : PublicKey;
  supply : BN;
  maxSupply : BN;
}.
Arguments t : clear implicits.
End NftEdition.

Module Mint.
Record t {PublicKey : Type} : Type := {
  model : string;
  address : PublicKey;
  mintAuthorityAddress : PublicKey;
  freezeAuthorityAddress : PublicKey;
  decimals : Z;
  supply : Amount;
  isWrappedSol : bool;
  currency : SplTokenCurrency;
}.
Arguments t : clear implicits.
End Mint.

Module Collection.
Record t {PublicKey : Type} : Type := {
  address : PublicKey;
  verified : bool;
}.
Arguments t : clear implicits.
End Collection.

Module Metadata.
Record t {PublicKey PdaData : Type} : Type := {
  model : string;
  address : PdaData;
  mintAddress : PublicKey;
  updateAuthorityAddress : PublicKey;
  name : string;
  symbol : string;
  json : option ReadApi.JsonMetadata;
  jsonLoaded : bool;
  uri : string;
  isMutable : bool;
  primarySaleHappened : bool;
  sellerFeeBasisPoints : Z;
  creators : list ReadApi.Creator;
  editionNonce : option Z;
  tokenStandard : TokenStandard;
  collection : option (Collection.t PublicKey);
  compression : ReadApi.Compression;
  collectionDetails : option JsValue;
  uses : option JsValue;
  programmableConfig : option JsValue;
}.
Arguments t : clear implicits.
End Metadata.

(* ===================================================================== *)
(** ** Transformers, lines 343-420 *)
(* ===================================================================== *)

Section Transformers.

(** The SDK the transformers call into: the [PublicKey] constructor, which
    throws on a string that is not the base-58 form of 32 bytes, its
    [toBuffer], the Bubblegum program id, and [Pda.find] with the [data]
    member the source reads from what it returns. *)
Context {PublicKey Pda PdaData : Type}.
Variable new_PublicKey : string -> Completion PublicKey.
Variable toBuffer : PublicKey -> list byte.
Variable BUBBLEGUM_PROGRAM_ID : PublicKey.
Variable Pda_find : PublicKey -> list (list byte) -> Completion Pda.
Variable data : Pda -> PdaData.

(** lines 344-352 *)
Definition toNftEditionFromReadApiAsset (input : ReadApi.Asset)
  : Completion (NftEdition.t PublicKey) :=
  let! address := new_PublicKey (ReadApi.id input) in
  let! supply :=
    toBigNumber (ReadApi.print_current_supply (ReadApi.supply input)) in
  let! maxSupply :=
    toBigNumber (ReadApi.print_max_supply (ReadApi.supply input)) in
  Normal {|
    NftEdition.model := "nftEdition";
    NftEdition.isOriginal := true;
    NftEdition.address := address;
    NftEdition.supply := supply;
    NftEdition.maxSupply := maxSupply;
  |}.

(** lines 354-371 *)
Definition toMintFromReadApiAsset (input : ReadApi.Asset)
  : Completion (Mint.t PublicKey) :=
  let currency : SplTokenCurrency :=
    {| symbol := "Token"; decimals := 0; namespace := "spl-token" |} in
  let! address := new_PublicKey (ReadApi.id input) in
  let! mintAuthorityAddress := new_PublicKey (ReadApi.id input) in
  let! freezeAuthorityAddress := new_PublicKey (ReadApi.id input) in
  Normal {|
    Mint.model := "mint";
    Mint.address := address;
    Mint.mintAuthorityAddress := mintAuthorityAddress;
    Mint.freezeAuthorityAddress := freezeAuthorityAddress;
    Mint.decimals := 0;
    Mint.supply := amount 1 currency;
    Mint.isWrappedSol := false;
    Mint.currency := currency;
  |}.

(** [a.scopes.includes("full")] *)
Definition has_full_scope (a : ReadApi.Authority) : bool :=
  existsb (String.eqb "full") (ReadApi.scopes a).

(** [group_key === "collection"] *)
Definition is_collection (g : ReadApi.Grouping) : bool :=
  String.eqb (ReadApi.group_key g) "collection".

(** lines 373-420 *)
Definition toMetadataFromReadApiAsset (input : ReadApi.Asset)
  : Completion (Metadata.t PublicKey PdaData) :=
  let updateAuthority :=
    match ReadApi.authorities input with
    | Some authorities => List.find has_full_scope authorities
    | None => None
    end in
  match updateAuthority with
  | None =>
      Throw (ThrownError
        (ReadApiError "No update authority with full scope found." None))
  | Some updateAuthority =>
      let collection := List.find is_collection (ReadApi.grouping input) in
      let! tree := new_PublicKey (ReadApi.tree (ReadApi.compression input)) in
      let! leaf := new_BN (ReadApi.leaf_id (ReadApi.compression input)) in
      let! leaf_bytes := BN_toArray_le leaf 8 in
      let! pda := Pda_find BUBBLEGUM_PROGRAM_ID
                    [Buffer_from_utf8 "asset"; toBuffer tree; leaf_bytes] in
      let! mintAddress := new_PublicKey (ReadApi.id input) in
      let! updateAuthorityAddress :=
        new_PublicKey (ReadApi.address updateAuthority) in
      let! collection :=
        match collection with
        | Some collection =>
            let! address := new_PublicKey (ReadApi.group_value collection) in
            Normal (Some {| Collection.address := address;
                            Collection.verified := false |})
        | None => Normal None
        end in
      Normal {|
        Metadata.model := "metadata";
        Metadata.address := data pda;
        Metadata.mintAddress := mintAddress;
        Metadata.updateAuthorityAddress := updateAuthorityAddress;
        Metadata.name :=
          default "" (ReadApi.metadata (ReadApi.content input)
                      ≫= ReadApi.name);
        Metadata.symbol :=
          default "" (ReadApi.metadata (ReadApi.content input)
                      ≫= ReadApi.symbol);
        Metadata.json := ReadApi.metadata (ReadApi.content input);
        Metadata.jsonLoaded := true;
        Metadata.uri := ReadApi.json_uri (ReadApi.content input);
        Metadata.isMutable := ReadApi.mutable input;
        Metadata.primarySaleHappened :=
          ReadApi.primary_sale_happened (ReadApi.royalty input);
        Metadata.sellerFeeBasisPoints :=
          ReadApi.basis_points (ReadApi.royalty input);
        Metadata.creators := ReadApi.creators input;
        Metadata.editionNonce := ReadApi.edition_nonce (ReadApi.supply input);
        Metadata.tokenStandard := NonFungible;
        Metadata.collection := collection;
        Metadata.compression := ReadApi.compression input;
        Metadata.collectionDetails := None;
        Metadata.uses := None;
        Metadata.programmableConfig := None;
      |}
  end.

(** The authority the transformer takes: the first with the full scope. *)
Definition update_authority (input : ReadApi.Asset) : option ReadApi.Authority :=
  match ReadApi.authorities input with
  | Some authorities => List.find has_full_scope authorities
  | None => None
  end.

(** The asset invariants, relative to the SDK: the strings the
    transformers turn into keys are addresses the [PublicKey] constructor
    accepts, the leaf index is a safe integer, and the program-derived
    address of the asset's seeds exists. *)
Record sdk_accepts (input : ReadApi.Asset) : Prop := {
  accepts_id : exists k, new_PublicKey (ReadApi.id input) = Normal k;
  accepts_tree :
    exists t p,
      new_PublicKey (ReadApi.tree (ReadApi.compression input)) = Normal t
      /\ Pda_find BUBBLEGUM_PROGRAM_ID
           [Buffer_from_utf8 "asset"; toBuffer t;
            le_bytes 8 (Z.abs_N (ReadApi.leaf_id (ReadApi.compression input)))]
         = Normal p;
  accepts_leaf : Z.abs (ReadApi.leaf_id (ReadApi.compression input)) < 2 ^ 53;
  accepts_authorities :
    forall l a, ReadApi.authorities input = Some l -> In a l ->
      exists k, new_PublicKey (ReadApi.address a) = Normal k;
  accepts_collections :
    forall g, In g (ReadApi.grouping input) ->
      ReadApi.group_key g = "collection" ->
      exists k, new_PublicKey (ReadApi.group_value g) = Normal k;
}.

(** What [toMetadataFromReadApiAsset] needs of an asset to return: a
    full-scope authority, and that the SDK accepts what the transformer
    hands to it, which is the tree address, the leaf index (a safe
    integer), the seeds, the asset id, the address of the first full-scope
    authority and the value of the first "collection" grouping, if there is
    one. *)
Definition metadata_inputs_accepted (input : ReadApi.Asset) : Prop :=
  exists authority tree pda,
    update_authority input = Some authority
    /\ new_PublicKey (ReadApi.tree (ReadApi.compression input)) = Normal tree
    /\ Z.abs (ReadApi.leaf_id (ReadApi.compression input)) < 2 ^ 53
    /\ Pda_find BUBBLEGUM_PROGRAM_ID
         [Buffer_from_utf8 "asset"; toBuffer tree;
          le_bytes 8 (Z.abs_N (ReadApi.leaf_id (ReadApi.compression input)))]
       = Normal pda
    /\ (exists k, new_PublicKey (ReadApi.id input) = Normal k)
    /\ (exists k, new_PublicKey (ReadApi.address authority) = Normal k)
    /\ (forall g,
          List.find is_collection (ReadApi.grouping input) = Some g ->
          exists k, new_PublicKey (ReadApi.group_value g) = Normal k).

End Transformers.

(* ===================================================================== *)
(** ** Definitions for the statements about the client *)
(* ===================================================================== *)

(** The error [validatePagination] throws. *)
Definition pagination_error : JsError :=
  ReadApiError
    "Pagination Error. Only one pagination parameter supported per query." None.

(** The request [callReadApi] hands to [fetch] for a method and its params
    when the caller gives no id. *)
Definition read_api_request (rpcEndpoint method : string) (params : JsValue)
  : HttpRequest :=
  {| url := rpcEndpoint;
     http_method := "POST";
     headers := [("Content-Type", "application/json")];
     body := JObj (<["jsonrpc" := JStr "2.0"]>
                  (<["method" := JStr method]>
                  (<["id" := JStr "rpd-op-123"]>
                  (<["params" := params]> ∅)))) |}.

(** What [callReadApi] makes of the settled [fetch]. *)
Definition settle (c : Completion HttpResponse) : Completion JsValue :=
  match c with
  | Throw t =>
      Throw (ThrownError (ReadApiError "Failed to call ReadAPI" (instance_of_Error t)))
  | Normal response =>
      if ok response then
        match json response with
        | Normal v => Normal v
        | Throw t =>
            Throw (ThrownError
              (ReadApiError "Failed to call ReadAPI" (instance_of_Error t)))
        end
      else
        Throw (ThrownError
          (ReadApiError "Failed to call ReadAPI"
             (Some (Error (http_status_message response)))))
  end.

(** The params of an asset-list query. *)
Definition list_params (input : gmap string JsValue) : gmap string JsValue :=
  <["sortBy" := coalesce (prop input "sortBy") JNull]>
  (<["limit" := coalesce (prop input "limit") JNull]>
  (<["after" := coalesce (prop input "after") JNull]>
  (<["before" := coalesce (prop input "before") JNull]>
  (<["page" := coalesce (prop input "page") (JNum 1)]> input)))).

(** The tail every method shares: destructure [result], test it. *)
Definition unwrap_result (no_result : string) (c : Completion JsValue)
  : Completion JsValue :=
  let! response := c in
  let! result := get_property response "result" in
  if truthy result then Normal result
  else Throw (ThrownError (ReadApiError no_result None)).

(** How many of the three pagination parameters an input sets. *)
Definition pagination_parameters_set (input : gmap string JsValue) : nat :=
  length (filter (fun k => negb (nullish (prop input k)))
            ["page"; "before"; "after"]).

(** The optional fields of an asset-list query with their defaults. *)
Definition pagination_defaults : list (string * JsValue) :=
  [("page", JNum 1); ("before", JNull); ("after", JNull);
   ("limit", JNull); ("sortBy", JNull)].

(* ===================================================================== *)
(** ** Fixtures *)
(* ===================================================================== *)

(** A stand-in for the SDK and the endpoint, to run the code on concrete
    inputs: a key is the string it was built from, the empty string is not
    a key, and a program-derived address is the program with its seeds. *)
Module Fixture.

Definition new_PublicKey (s : string) : Completion string :=
  if String.eqb s "" then Throw (ThrownError (Error "Invalid public key input"))
  else Normal s.

Definition toBase58 (k : string) : string := k.

Definition toBuffer (k : string) : list byte := list_byte_of_string k.

Definition BUBBLEGUM_PROGRAM_ID : string :=
  "BGUMAp9Gq7iTEuizy4pqaxsTyUCBK68MDfK752saRPUY".

Definition Pda_find (program : string) (seeds : list (list byte))
  : Completion (string * list (list byte)) :=
  Normal (program, seeds).

Definition data (pda : string * list (list byte)) : string * list (list byte) :=
  pda.

(** An endpoint that answers every request with the same response. *)
Definition answers (response : HttpResponse)
  : list HttpRequest -> HttpRequest -> Completion HttpResponse :=
  fun _ _ => Normal response.

(** An endpoint that cannot be reached. *)
Definition unreachable
  : list HttpRequest -> HttpRequest -> Completion HttpResponse :=
  fun _ _ => Throw (ThrownError (TypeError "fetch failed")).

Definition rpcEndpoint : string := "https://api.devnet.solana.com".

(** The asset of the spec's end-to-end scenario. *)
Definition asset (grouping : list ReadApi.Grouping) : ReadApi.Asset :=
  {| ReadApi.id := "Addr1";
     ReadApi.authorities :=
       Some [ {| ReadApi.address := "Auth0"; ReadApi.scopes := ["royalty"] |};
              {| ReadApi.address := "Auth1"; ReadApi.scopes := ["full"] |} ];
     ReadApi.grouping := grouping;
     ReadApi.compression := {| ReadApi.tree := "Tree1"; ReadApi.leaf_id := 258 |};
     ReadApi.supply :=
       {| ReadApi.print_current_supply := 0;
          ReadApi.print_max_supply := 0;
          ReadApi.edition_nonce := Some 0 |};
     ReadApi.royalty :=
       {| ReadApi.basis_points := 500; ReadApi.primary_sale_happened := false |};
     ReadApi.content :=
       {| ReadApi.metadata :=
            Some {| ReadApi.name := Some "NFT Name"; ReadApi.symbol := None |};
          ReadApi.json_uri := "https://supersweetcollection.notarealurl/token.json" |};
     ReadApi.creators := [];
     ReadApi.mutable := false |}.

Definition in_collection : list ReadApi.Grouping :=
  [ {| ReadApi.group_key := "collection"; ReadApi.group_value := "Coll1" |} ].

End Fixture.

(** Assets at the edge of what the SDK takes, each with one full-scope
    authority and no grouping, and a [Pda.find] that returns the SDK's
    [Pda]. *)
Module Edge.

Definition asset (id : string) (leaf_id : Z) : ReadApi.Asset :=
  {| ReadApi.id := id;
     ReadApi.authorities :=
       Some [ {| ReadApi.address := "Auth1"; ReadApi.scopes := ["full"] |} ];
     ReadApi.grouping := [];
     ReadApi.compression := {| ReadApi.tree := "Tree1"; ReadApi.leaf_id := leaf_id |};
     ReadApi.supply :=
       {| ReadApi.print_current_supply := 0;
          ReadApi.print_max_supply := 0;
          ReadApi.edition_nonce := None |};
     ReadApi.royalty :=
       {| ReadApi.basis_points := 0; ReadApi.primary_sale_happened := false |};
     ReadApi.content := {| ReadApi.metadata := None; ReadApi.json_uri := "" |};
     ReadApi.creators := [];
     ReadApi.mutable := false |}.

Definition Pda_find (program : string) (seeds : list (list byte))
  : Completion (SdkPda.t string) :=
  Normal {| SdkPda.key := program; SdkPda.bump := 255 |}.

End Edge.

(** The four methods of the client run from the same log: for each, its
    "no result" message, the request it hands to [fetch], and how it
    completes. *)
Definition client_runs {PublicKey : Type} (toBase58 : PublicKey -> string)
  (rpcEndpoint : string)
  (fetch : list HttpRequest -> HttpRequest -> Completion HttpResponse)
  (assetId : PublicKey) (input : gmap string JsValue) (log : list HttpRequest)
  : list (string * HttpRequest * Completion JsValue) :=
  [ ("No asset returned",
     read_api_request rpcEndpoint "getAsset"
       (JObj {[ "id" := JStr (toBase58 assetId) ]}),
     fst (getAsset toBase58 rpcEndpoint fetch assetId log));
    ("No asset proof returned",
     read_api_request rpcEndpoint "getAssetProof"
       (JObj {[ "id" := JStr (toBase58 assetId) ]}),
     fst (getAssetProof toBase58 rpcEndpoint fetch assetId log));
    ("No results returned",
     read_api_request rpcEndpoint "getAssetsByGroup" (JObj (list_params input)),
     fst (getAssetsByGroup rpcEndpoint fetch input log));
    ("No results returned",
     read_api_request rpcEndpoint "getAssetsByOwner" (JObj (list_params input)),
     fst (getAssetsByOwner rpcEndpoint fetch input log)) ].

(* ===================================================================== *)
(** ** Effects of the helper functions *)
(* ===================================================================== *)

(** A computation over a world [W]: it completes normally or throws, and
    leaves a world behind either way. *)
Definition Eff (W A : Type) : Type := W -> Completion A * W.

Definition eret {W A} (a : A) : Eff W A := fun w => (Normal a, w).

Definition ethrow {W A} (e : JsError) : Eff W A :=
  fun w => (Throw (ThrownError e), w).

Definition elift {W A} (c : Completion A) : Eff W A := fun w => (c, w).

Definition ebind {W A B} (c : Eff W A) (k : A -> Eff W B) : Eff W B :=
  fun w =>
    match c w with
    | (Normal a, w') => k a w'
    | (Throw t, w') => (Throw t, w')
    end.

Notation "'let$' x := c 'in' k" := (ebind c (fun x => k))
  (at level 10, x name, c at level 100, k at level 200).

(** [try { body } catch (err) { handler }]: the handler runs in the world
    the body left. *)
Definition etry {W A} (body : Eff W A) (handler : Thrown -> Eff W A) : Eff W A :=
  fun w =>
    match body w with
    | (Normal a, w') => (Normal a, w')
    | (Throw t, w') => handler t w'
    end.

(** A line on the console.  The values printed after the message (a caught
    error, a transaction signature) are left out. *)
Inductive ConsoleLine : Type :=
| ConsoleLog (message : string)
| ConsoleWarn (message : string).

(** [record[key] = value] on a plain object used as a record: every key
    becomes an own property but "__proto__", which sets the prototype
    instead. *)
Definition assign {A : Type} (key : string) (value : A) (record : gmap string A)
  : gmap string A :=
  if String.eqb key "__proto__" then record else <[key := value]> record.

(** The decimal form of an array index. *)
Definition index_key (i : nat) : string :=
  NilZero.string_of_uint (Nat.to_uint i).

(** [Object.entries(v)]: the own enumerable properties.  [null] and
    [undefined] throw; numbers and booleans have none; an array has its
    elements and a string its characters, under their indices. *)
Definition Object_entries (v : JsValue) : Completion (list (string * JsValue)) :=
  match v with
  | JObj o => Normal (map_to_list o)
  | JArr items => Normal (imap (fun i x => (index_key i, x)) items)
  | JStr s =>
      Normal (imap (fun i c => (index_key i, JStr (String c EmptyString)))
                (list_ascii_of_string s))
  | JBool _ | JNum _ => Normal []
  | JUndefined | JNull =>
      Throw (ThrownError (TypeError "Cannot convert undefined or null to object"))
  end.

(* ===================================================================== *)
(** ** Key files, lines 127-226 *)
(* ===================================================================== *)

(** lines 131-132 *)
Definition DEFAULT_KEY_DIR_NAME : string := ".local_keys".
Definition DEFAULT_PUBLIC_KEY_FILE : string := "keys.json".

(** The world of the key-file helpers: the file system, the console, and
    how many keypairs [Keypair.generate] has handed out. *)
Record KeyWorld {FS : Type} : Type := {
  disk : FS;
  console : list ConsoleLine;
  generated : nat;
}.
Arguments KeyWorld : clear implicits.

Section KeyFiles.

(** The platform: [fs], [path], [JSON] and the SDK's keys.  A file holds a
    [Text]; [JSON_stringify v space] is [JSON.stringify(v, null, space)];
    a file-system call returns its completion with the file system it
    leaves; [Keypair_generate n] is the keypair the n-th call of
    [Keypair.generate] returns. *)
Context {FS Text PublicKey Keypair : Type}.
Variable existsSync : FS -> string -> bool.
Variable readFileSync : FS -> string -> Completion Text.
Variable writeFileSync : FS -> string -> Text -> Completion unit * FS.
Variable mkdirSync : FS -> string -> Completion unit * FS.
Variable path_join : string -> string -> string.
Variable path_dirname : string -> string.
Variable JSON_parse : Text -> Completion JsValue.
Variable JSON_stringify : JsValue -> option Z -> Text.
Variable new_PublicKey : JsValue -> Completion PublicKey.
Variable toBase58 : PublicKey -> string.
Variable new_Uint8Array : JsValue -> Completion (list byte).
Variable Keypair_fromSecretKey : list byte -> Completion Keypair.
Variable secretKey : Keypair -> list byte.
Variable Keypair_generate : nat -> Keypair.

Definition fs_existsSync (path : string) : Eff (KeyWorld FS) bool :=
  fun w => (Normal (existsSync (disk w) path), w).

Definition fs_readFileSync (path : string) : Eff (KeyWorld FS) Text :=
  fun w => (readFileSync (disk w) path, w).

Definition fs_writeFileSync (path : string) (text : Text) : Eff (KeyWorld FS) unit :=
  fun w =>
    let (c, disk') := writeFileSync (disk w) path text in
    (c, {| disk := disk'; console := console w; generated := generated w |}).

Definition fs_mkdirSync (path : string) : Eff (KeyWorld FS) unit :=
  fun w =>
    let (c, disk') := mkdirSync (disk w) path in
    (c, {| disk := disk'; console := console w; generated := generated w |}).

Definition console_warn (message : string) : Eff (KeyWorld FS) unit :=
  fun w =>
    (Normal tt,
     {| disk := disk w;
        console := (console w ++ [ConsoleWarn message])%list;
        generated := generated w |}).

Definition generate : Eff (KeyWorld FS) Keypair :=
  fun w =>
    (Normal (Keypair_generate (generated w)),
     {| disk := disk w; console := console w; generated := S (generated w) |}).

(** lines 135-139 *)
Definition ensureDirExists (dir : string) : Eff (KeyWorld FS) unit :=
  let$ present := fs_existsSync dir in
  if negb present then fs_mkdirSync dir else eret tt.

(** The loop of lines 149-151: [parsed[key] = new PublicKey(value)]. *)
Fixpoint parse_entries (entries : list (string * JsValue))
  (parsed : gmap string PublicKey) : Completion (gmap string PublicKey) :=
  match entries with
  | [] => Normal parsed
  | (key, value) :: rest =>
      let! k := new_PublicKey value in
      parse_entries rest (assign key k parsed)
  end.

(** lines 141-157 *)
Definition loadPublicKeysFromFile (absPath : option string)
  : Eff (KeyWorld FS) (gmap string PublicKey) :=
  let absPath :=
    default (path_join DEFAULT_KEY_DIR_NAME DEFAULT_PUBLIC_KEY_FILE) absPath in
  etry
    (let$ present := fs_existsSync absPath in
     if negb present then eret ∅
     else
       let$ raw := fs_readFileSync absPath in
       let$ data := elift (JSON_parse raw) in
       let$ entries := elift (Object_entries data) in
       elift (parse_entries entries ∅))
    (fun err =>
       let$ _ := console_warn "Failed to load public keys:" in
       eret ∅).

(** lines 159-178 *)
Definition savePublicKeyToFile (name : string) (publicKey : PublicKey)
  (absPath : option string) : Eff (KeyWorld FS) (gmap string PublicKey) :=
  let absPath :=
    default (path_join DEFAULT_KEY_DIR_NAME DEFAULT_PUBLIC_KEY_FILE) absPath in
  etry
    (let$ _ := ensureDirExists (path_dirname absPath) in
     let$ data := loadPublicKeysFromFile (Some absPath) in
     let data := assign name publicKey data in
     let toSave : gmap string JsValue := (fun v => JStr (toBase58 v)) <$> data in
     let$ _ := fs_writeFileSync absPath (JSON_stringify (JObj toSave) (Some 2)) in
     eret data)
    (fun err =>
       let$ _ := console_warn "Failed to save public key:" in
       eret ∅).

(** lines 200-204 *)
Definition loadKeypairFromFile (absPath : string) : Eff (KeyWorld FS) Keypair :=
  let$ present := fs_existsSync absPath in
  if negb present then ethrow (Error "Keypair file does not exist")
  else
    let$ text := fs_readFileSync absPath in
    let$ raw := elift (JSON_parse text) in
    let$ bytes := elift (new_Uint8Array raw) in
    elift (Keypair_fromSecretKey bytes).

(** [Array.from(keypair.secretKey)] *)
Definition Array_from (bytes : list byte) : JsValue :=
  JArr (map (fun b => JNum (Z.of_N (Byte.to_N b))) bytes).

(** lines 206-215 *)
Definition saveKeypairToFile (keypair : Keypair) (fileName : string)
  (dirName : option string) : Eff (KeyWorld FS) string :=
  let dirName := default DEFAULT_KEY_DIR_NAME dirName in
  let$ _ := ensureDirExists dirName in
  let fullPath := path_join dirName (fileName +:+ ".json") in
  let$ _ := fs_writeFileSync fullPath
              (JSON_stringify (Array_from (secretKey keypair)) None) in
  eret fullPath.

(** lines 217-226 *)
Definition loadOrGenerateKeypair (fileName : string) (dirName : option string)
  : Eff (KeyWorld FS) Keypair :=
  let dirName := default DEFAULT_KEY_DIR_NAME dirName in
  let fullPath := path_join dirName (fileName +:+ ".json") in
  let$ present := fs_existsSync fullPath in
  if present then loadKeypairFromFile fullPath
  else
    let$ kp := generate in
    let$ _ := saveKeypairToFile kp fileName (Some dirName) in
    eret kp.

(** What the body of the [try] in [loadPublicKeysFromFile] computes from
    the file, when it is there. *)
Definition read_keys (w : KeyWorld FS) (path : string)
  : Completion (gmap string PublicKey) :=
  let! raw := readFileSync (disk w) path in
  let! data := JSON_parse raw in
  let! entries := Object_entries data in
  parse_entries entries ∅.

End KeyFiles.

(* ===================================================================== *)
(** ** airdropOnLowBalance, lines 246-259 *)
(* ===================================================================== *)

(** [LAMPORTS_PER_SOL] of the SDK. *)
Definition LAMPORTS_PER_SOL : Z := 1000000000.

(** A call on the [Connection]. *)
Inductive ConnectionCall {PublicKey : Type} : Type :=
| CallGetBalance (address : PublicKey)
| CallRequestAirdrop (address : PublicKey) (lamports : Z).
Arguments ConnectionCall : clear implicits.

Record RpcWorld {PublicKey : Type} : Type := {
  calls : list (ConnectionCall PublicKey);
  printed : list ConsoleLine;
}.
Arguments RpcWorld : clear implicits.

Section Airdrop.

(** The connection answers a call given the calls made before it. *)
Context {PublicKey : Type}.
Variable toBase58 : PublicKey -> string.
Variable getBalance :
  list (ConnectionCall PublicKey) -> PublicKey -> Completion Z.
Variable requestAirdrop :
  list (ConnectionCall PublicKey) -> PublicKey -> Z -> Completion string.

Definition connection_getBalance (address : PublicKey)
  : Eff (RpcWorld PublicKey) Z :=
  fun w =>
    (getBalance (calls w) address,
     {| calls := (calls w ++ [CallGetBalance address])%list;
        printed := printed w |}).

Definition connection_requestAirdrop (address : PublicKey) (lamports : Z)
  : Eff (RpcWorld PublicKey) string :=
  fun w =>
    (requestAirdrop (calls w) address lamports,
     {| calls := (calls w ++ [CallRequestAirdrop address lamports])%list;
        printed := printed w |}).

Definition console_log (message : string) : Eff (RpcWorld PublicKey) unit :=
  fun w =>
    (Normal tt,
     {| calls := calls w;
        printed := (printed w ++ [ConsoleLog message])%list |}).

(** lines 246-259; [publicKey] is [keypair.publicKey]. *)
Definition airdropOnLowBalance (publicKey : PublicKey)
  (forceAirdrop : option bool) : Eff (RpcWorld PublicKey) Z :=
  let forceAirdrop := default false forceAirdrop in
  let$ balance := connection_getBalance publicKey in
  let threshold := LAMPORTS_PER_SOL / 2 in
  let$ _ :=
    if forceAirdrop || (balance <? threshold) then
      let$ _ := console_log
                  ("Airdropping 1 SOL to " +:+ toBase58 publicKey +:+ "...") in
      let$ sig := connection_requestAirdrop publicKey LAMPORTS_PER_SOL in
      console_log "Tx:"
    else eret tt in
  eret balance.

End Airdrop.

(** The world after a warning. *)
Definition warned {FS : Type} (w : KeyWorld FS) (message : string) : KeyWorld FS :=
  {| disk := disk w;
     console := (console w ++ [ConsoleWarn message])%list;
     generated := generated w |}.

(** The world with another disk. *)
Definition on_disk {FS : Type} (w : KeyWorld FS) (disk' : FS) : KeyWorld FS :=
  {| disk := disk'; console := console w; generated := generated w |}.

(** A stand-in platform for the key-file helpers: the disk is a map from
    paths to texts and has no directories, a text is a JSON value or
    something that does not parse, a key is its base-58 string, and a
    keypair is its secret bytes. *)
Module Platform.

Inductive Text : Type :=
| Json (v : JsValue) (space : option Z)
| Garbage.

Definition existsSync (disk : gmap string Text) (path : string) : bool :=
  bool_decide (is_Some (disk !! path)).

Definition readFileSync (disk : gmap string Text) (path : string)
  : Completion Text :=
  match disk !! path with
  | Some text => Normal text
  | None => Throw (ThrownError (Error "ENOENT: no such file or directory"))
  end.

Definition writeFileSync (disk : gmap string Text) (path : string) (text : Text)
  : Completion unit * gmap string Text :=
  (Normal tt, <[path := text]> disk).

Definition mkdirSync (disk : gmap string Text) (path : string)
  : Completion unit * gmap string Text :=
  (Normal tt, disk).

Definition path_join (dir file : string) : string := dir +:+ "/" +:+ file.

Definition path_dirname (path : string) : string := ".".

Definition JSON_parse (text : Text) : Completion JsValue :=
  match text with
  | Json v _ => Normal v
  | Garbage =>
      Throw (ThrownError (MkError ClsSyntaxError "Unexpected token" None))
  end.

Definition JSON_stringify (v : JsValue) (space : option Z) : Text := Json v space.

Definition new_PublicKey (v : JsValue) : Completion string :=
  match v with
  | JStr s => Normal s
  | _ => Throw (ThrownError (Error "Invalid public key input"))
  end.

Definition toBase58 (k : string) : string := k.

Definition new_Uint8Array (v : JsValue) : Completion (list byte) :=
  match v with
  | JArr items =>
      Normal (map (fun x => match x with
                            | JNum n => byte_of_ascii (ascii_of_N (Z.to_N n mod 256))
                            | _ => x00
                            end) items)
  | _ => Normal []
  end.

Definition Keypair_fromSecretKey (bytes : list byte) : Completion (list byte) :=
  Normal bytes.

Definition secretKey (kp : list byte) : list byte := kp.

Definition Keypair_generate (n : nat) : list byte :=
  [byte_of_ascii (ascii_of_nat n); x2a].

Definition empty : KeyWorld (gmap string Text) :=
  {| disk := ∅; console := []; generated := 0 |}.

End Platform.

(* ===================================================================== *)
(** ** The client, method by method *)
(* ===================================================================== *)

Section ClientFacts.

Context {PublicKey : Type}.
Variable toBase58 : PublicKey -> string.
Variable rpcEndpoint : string.
Variable fetch : list HttpRequest -> HttpRequest -> Completion HttpResponse.

Lemma callReadApi_run (m : string) (p : JsValue) (log : list HttpRequest) :
  callReadApi rpcEndpoint fetch {| method := m; id := None; params := p |} log
  = (settle (fetch log (read_api_request rpcEndpoint m p)),
     (log ++ [read_api_request rpcEndpoint m p])%list).
Proof.
  unfold callReadApi, settle, try_catch, cbind; cbn [method id params default].
  fold (read_api_request rpcEndpoint m p).
  destruct (fetch log _) as [response | t]; [ | reflexivity ].
  destruct (ok response); cbn; [ | reflexivity ].
  destruct (json response); reflexivity.
Qed.

Lemma getAsset_run (assetId : PublicKey) (log : list HttpRequest) :
  let request :=
    read_api_request rpcEndpoint "getAsset"
      (JObj {[ "id" := JStr (toBase58 assetId) ]}) in
  getAsset toBase58 rpcEndpoint fetch assetId log
  = (unwrap_result "No asset returned" (settle (fetch log request)),
     (log ++ [request])%list).
Proof.
  cbn zeta. unfold getAsset, bind. rewrite callReadApi_run.
  unfold unwrap_result, cbind, lift, throw, ret.
  destruct (settle _) as [response | t]; [ | reflexivity ].
  destruct (get_property response "result") as [result | t]; [ | reflexivity ].
  destruct (truthy result); reflexivity.
Qed.

Lemma getAssetProof_run (assetId : PublicKey) (log : list HttpRequest) :
  let request :=
    read_api_request rpcEndpoint "getAssetProof"
      (JObj {[ "id" := JStr (toBase58 assetId) ]}) in
  getAssetProof toBase58 rpcEndpoint fetch assetId log
  = (unwrap_result "No asset proof returned" (settle (fetch log request)),
     (log ++ [request])%list).
Proof.
  cbn zeta. unfold getAssetProof, bind. rewrite callReadApi_run.
  unfold unwrap_result, cbind, lift, throw, ret.
  destruct (settle _) as [response | t]; [ | reflexivity ].
  destruct (get_property response "result") as [result | t]; [ | reflexivity ].
  destruct (truthy result); reflexivity.
Qed.

Lemma getAssetsByOwner_run (input : gmap string JsValue) (log : list HttpRequest) :
  let request :=
    read_api_request rpcEndpoint "getAssetsByOwner" (JObj (list_params input)) in
  getAssetsByOwner rpcEndpoint fetch input log
  = match validatePagination (prop input "page") (prop input "before")
                             (prop input "after") with
    | Throw t => (Throw t, log)
    | Normal _ =>
        (unwrap_result "No results returned" (settle (fetch log request)),
         (log ++ [request])%list)
    end.
Proof.
  cbn zeta. unfold getAssetsByOwner, bind, lift.
  destruct (validatePagination _ _ _); [ | reflexivity ].
  fold (list_params input). rewrite callReadApi_run.
  unfold unwrap_result, cbind, lift, throw, ret.
  destruct (settle _) as [response | t]; [ | reflexivity ].
  destruct (get_property response "result") as [result | t]; [ | reflexivity ].
  destruct (truthy result); reflexivity.
Qed.

Lemma getAssetsByGroup_run (input : gmap string JsValue) (log : list HttpRequest) :
  let request :=
    read_api_request rpcEndpoint "getAssetsByGroup" (JObj (list_params input)) in
  getAssetsByGroup rpcEndpoint fetch input log
  = match validatePagination (prop input "page") (prop input "before")
                             (prop input "after") with
    | Throw t => (Throw t, log)
    | Normal _ =>
        (unwrap_result "No results returned" (settle (fetch log request)),
         (log ++ [request])%list)
    end.
Proof.
  cbn zeta. unfold getAssetsByGroup, bind, lift.
  destruct (validatePagination _ _ _); [ | reflexivity ].
  fold (list_params input). rewrite callReadApi_run.
  unfold unwrap_result, cbind, lift, throw, ret.
  destruct (settle _) as [response | t]; [ | reflexivity ].
  destruct (get_property response "result") as [result | t]; [ | reflexivity ].
  destruct (truthy result); reflexivity.
Qed.

End ClientFacts.

(* ===================================================================== *)
(** ** Pagination *)
(* ===================================================================== *)

Lemma truthy_js_or (a b : JsValue) :
  truthy (js_or a b) = truthy a || truthy b.
Proof. unfold js_or. destruct (truthy a) eqn:E; [ exact E | reflexivity ]. Qed.

Lemma validatePagination_throws (page before after : JsValue) :
  is_number page = true ->
  truthy before = true \/ truthy after = true ->
  validatePagination page before after = Throw (ThrownError pagination_error).
Proof.
  intros Hpage Hcursor. unfold validatePagination.
  rewrite Hpage, truthy_js_or.
  destruct Hcursor as [-> | ->]; [ | rewrite orb_true_r ]; reflexivity.
Qed.

Lemma validatePagination_passes (page before after : JsValue) :
  ~ (is_number page = true /\ (truthy before = true \/ truthy after = true)) ->
  validatePagination page before after = Normal tt.
Proof.
  intros Hno. unfold validatePagination. rewrite truthy_js_or.
  destruct (is_number page); [ | reflexivity ].
  destruct (truthy before); [ exfalso; apply Hno; auto | ].
  destruct (truthy after); [ exfalso; apply Hno; auto | reflexivity ].
Qed.

(** A cursor the caller left empty counts as not supplied: the test is on
    truthiness, and the request goes out with the page and the empty
    cursor. *)
Lemma empty_cursor_not_supplied (page : JsValue) :
  validatePagination page (JStr "") JUndefined = Normal tt.
Proof. unfold validatePagination. destruct (is_number page); reflexivity. Qed.

(** C1: a call of [getAssetsByOwner] or [getAssetsByGroup] whose input has a
    numeric page together with a before or an after cursor (a non-empty
    string, or any other truthy value) throws the pagination error, and the
    log of [fetch] calls is the one it started with: whatever the endpoint
    would do, it is never asked. *)
Theorem paged_cursor_query_fails_before_network
  (rpcEndpoint : string)
  (fetch : list HttpRequest -> HttpRequest -> Completion HttpResponse)
  (input : gmap string JsValue) (log : list HttpRequest) :
  is_number (prop input "page") = true ->
  truthy (prop input "before") = true \/ truthy (prop input "after") = true ->
  getAssetsByOwner rpcEndpoint fetch input log
    = (Throw (ThrownError pagination_error), log)
  /\ getAssetsByGroup rpcEndpoint fetch input log
    = (Throw (ThrownError pagination_error), log).
Proof.
  intros Hpage Hcursor.
  rewrite getAssetsByOwner_run, getAssetsByGroup_run.
  rewrite (validatePagination_throws _ _ _ Hpage Hcursor). split; reflexivity.
Qed.

Lemma paged_cursor_query_fails_before_network_witness :
  let input : gmap string JsValue :=
    {[ "ownerAddress" := JStr "X"; "page" := JNum 2; "after" := JStr "Addr1" ]} in
  getAssetsByOwner Fixture.rpcEndpoint Fixture.unreachable input []
    = (Throw (ThrownError pagination_error), [])
  /\ getAssetsByGroup Fixture.rpcEndpoint Fixture.unreachable input []
    = (Throw (ThrownError pagination_error), []).
Proof.
  cbn zeta.
  apply (paged_cursor_query_fails_before_network
           Fixture.rpcEndpoint Fixture.unreachable
           {[ "ownerAddress" := JStr "X"; "page" := JNum 2; "after" := JStr "Addr1" ]}
           []).
  - vm_compute. reflexivity.
  - right. vm_compute. reflexivity.
Defined.

(** C2, as stated, fails: an input that sets a before-cursor and an
    after-cursor and no page sets two of the three pagination parameters,
    passes validation, and its request reaches the endpoint. *)
Lemma before_and_after_cursor_accepted :
  let input : gmap string JsValue :=
    {[ "ownerAddress" := JStr "X"; "before" := JStr "A"; "after" := JStr "B" ]} in
  let response :=
    {| status := 200; json := Normal (JObj {[ "result" := JObj ∅ ]}) |} in
  (1 < pagination_parameters_set input)%nat
  /\ validatePagination (prop input "page") (prop input "before")
                        (prop input "after") = Normal tt
  /\ getAssetsByOwner Fixture.rpcEndpoint (Fixture.answers response) input []
     = (Normal (JObj ∅),
        [read_api_request Fixture.rpcEndpoint "getAssetsByOwner"
           (JObj (list_params input))]).
Proof.
  cbn zeta. split; [ vm_compute; lia | ]. split; [ vm_compute; reflexivity | ].
  rewrite getAssetsByOwner_run. vm_compute. reflexivity.
Qed.

(** C2, amended: an asset-list query is rejected before the network call
    exactly when a numeric page comes with a truthy (non-empty) before or
    after cursor; then both methods throw the pagination error and leave the
    log alone.  Every other input, a before-cursor with an after-cursor
    among them, passes validation and its request is sent. *)
Theorem list_query_rejected_iff
  (rpcEndpoint : string)
  (fetch : list HttpRequest -> HttpRequest -> Completion HttpResponse)
  (input : gmap string JsValue) (log : list HttpRequest) :
  let page := prop input "page" in
  let before := prop input "before" in
  let after := prop input "after" in
  let combined :=
    is_number page = true /\ (truthy before = true \/ truthy after = true) in
  (validatePagination page before after = Throw (ThrownError pagination_error)
   <-> combined)
  /\ (combined ->
      getAssetsByOwner rpcEndpoint fetch input log
        = (Throw (ThrownError pagination_error), log)
      /\ getAssetsByGroup rpcEndpoint fetch input log
        = (Throw (ThrownError pagination_error), log))
  /\ (~ combined ->
      validatePagination page before after = Normal tt
      /\ snd (getAssetsByOwner rpcEndpoint fetch input log)
         = (log ++ [read_api_request rpcEndpoint "getAssetsByOwner"
                      (JObj (list_params input))])%list
      /\ snd (getAssetsByGroup rpcEndpoint fetch input log)
         = (log ++ [read_api_request rpcEndpoint "getAssetsByGroup"
                      (JObj (list_params input))])%list).
Proof.
  cbn zeta. split; [ split | split ].
  - intros Hthrow.
    destruct (is_number (prop input "page")) eqn:Hp,
             (truthy (prop input "before")) eqn:Hb,
             (truthy (prop input "after")) eqn:Ha;
      try (split; [ reflexivity | auto ]; fail);
      unfold validatePagination in Hthrow;
      rewrite Hp, truthy_js_or, Hb, Ha in Hthrow; discriminate Hthrow.
  - intros [Hp Hc]. apply validatePagination_throws; assumption.
  - intros [Hp Hc].
    rewrite getAssetsByOwner_run, getAssetsByGroup_run.
    rewrite (validatePagination_throws _ _ _ Hp Hc). split; reflexivity.
  - intros Hno.
    rewrite getAssetsByOwner_run, getAssetsByGroup_run.
    rewrite (validatePagination_passes _ _ _ Hno). repeat split.
Qed.

Lemma list_query_rejected_iff_witness :
  let input : gmap string JsValue :=
    {[ "groupKey" := JStr "collection"; "groupValue" := JStr "Coll1";
       "before" := JStr "A"; "after" := JStr "B" ]} in
  validatePagination (prop input "page") (prop input "before")
                     (prop input "after") = Normal tt
  /\ snd (getAssetsByGroup Fixture.rpcEndpoint Fixture.unreachable input [])
     = [read_api_request Fixture.rpcEndpoint "getAssetsByGroup"
          (JObj (list_params input))].
Proof.
  cbn zeta.
  destruct (list_query_rejected_iff
              Fixture.rpcEndpoint Fixture.unreachable
              {[ "groupKey" := JStr "collection"; "groupValue" := JStr "Coll1";
                 "before" := JStr "A"; "after" := JStr "B" ]} [])
    as (_ & _ & Hpass).
  destruct Hpass as (Hvalid & _ & Hgroup).
  - intros [Hpage _]. vm_compute in Hpage. discriminate Hpage.
  - split; [ exact Hvalid | exact Hgroup ].
Defined.

(* ===================================================================== *)
(** ** Request params of the asset-list queries *)
(* ===================================================================== *)

Lemma list_params_default (input : gmap string JsValue) (k : string) (d : JsValue) :
  In (k, d) pagination_defaults ->
  list_params input !! k = Some (coalesce (prop input k) d).
Proof.
  unfold pagination_defaults, list_params. cbn [In].
  intros [H | [H | [H | [H | [H | []]]]]]; injection H as <- <-;
    repeat first [ rewrite lookup_insert_eq; reflexivity
                 | rewrite lookup_insert_ne by (intros E; discriminate E) ].
Qed.

Lemma list_params_other (input : gmap string JsValue) (k : string) :
  ~ In k (map fst pagination_defaults) ->
  list_params input !! k = input !! k.
Proof.
  unfold pagination_defaults, list_params. cbn [map fst In]. intros Hk.
  repeat rewrite lookup_insert_ne by (intros E; apply Hk; rewrite E; tauto).
  reflexivity.
Qed.

(** The spec's example: [getAssetsByOwner({ownerAddress: "X"})] sends
    [{ownerAddress: "X", page: 1, before: null, after: null, limit: null,
    sortBy: null}] in one POST and returns the result of the response. *)
Lemma getAssetsByOwner_owner_only :
  let response :=
    {| status := 200; json := Normal (JObj {[ "result" := JArr [] ]}) |} in
  getAssetsByOwner Fixture.rpcEndpoint (Fixture.answers response)
    {[ "ownerAddress" := JStr "X" ]} []
  = (Normal (JArr []),
     [read_api_request Fixture.rpcEndpoint "getAssetsByOwner"
        (JObj {[ "ownerAddress" := JStr "X"; "page" := JNum 1;
                 "before" := JNull; "after" := JNull;
                 "limit" := JNull; "sortBy" := JNull ]})]).
Proof. vm_compute. reflexivity. Qed.

(** C3: when the pagination of the input is valid, [getAssetsByOwner] and
    [getAssetsByGroup] each make exactly one request, with the method's name
    and with params [p] such that: each of page, before, after, limit and
    sortBy is in [p], with the value of the input, or with its default
    (1 for page, null for the others) when the input omits it or has it as
    null or undefined; every other field of the input is in [p] unchanged,
    and [p] has no other field. *)
Theorem list_query_params_normalized
  (rpcEndpoint : string)
  (fetch : list HttpRequest -> HttpRequest -> Completion HttpResponse)
  (input : gmap string JsValue) (log : list HttpRequest) :
  validatePagination (prop input "page") (prop input "before")
                     (prop input "after") = Normal tt ->
  exists p : gmap string JsValue,
    snd (getAssetsByOwner rpcEndpoint fetch input log)
      = (log ++ [read_api_request rpcEndpoint "getAssetsByOwner" (JObj p)])%list
    /\ snd (getAssetsByGroup rpcEndpoint fetch input log)
      = (log ++ [read_api_request rpcEndpoint "getAssetsByGroup" (JObj p)])%list
    /\ (forall k d, In (k, d) pagination_defaults ->
          (input !! k = None -> p !! k = Some d)
          /\ (forall v, input !! k = Some v ->
                p !! k = Some (if nullish v then d else v)))
    /\ (forall k, ~ In k (map fst pagination_defaults) -> p !! k = input !! k).
Proof.
  intros Hvalid. exists (list_params input).
  rewrite getAssetsByOwner_run, getAssetsByGroup_run, Hvalid.
  split; [ reflexivity | split; [ reflexivity | split ] ].
  - intros k d Hin. rewrite (list_params_default input k d Hin). unfold prop.
    split.
    + intros ->. reflexivity.
    + intros v ->. reflexivity.
  - apply list_params_other.
Qed.

Lemma list_query_params_normalized_witness :
  exists p : gmap string JsValue,
    snd (getAssetsByOwner Fixture.rpcEndpoint Fixture.unreachable
           {[ "ownerAddress" := JStr "X"; "limit" := JNum 10 ]} [])
      = [read_api_request Fixture.rpcEndpoint "getAssetsByOwner" (JObj p)]
    /\ p !! "ownerAddress" = Some (JStr "X")
    /\ p !! "limit" = Some (JNum 10)
    /\ p !! "page" = Some (JNum 1)
    /\ p !! "sortBy" = Some JNull.
Proof.
  destruct (list_query_params_normalized
              Fixture.rpcEndpoint Fixture.unreachable
              {[ "ownerAddress" := JStr "X"; "limit" := JNum 10 ]} [])
    as (p & Howner & _ & Hdefaults & Hothers).
  - vm_compute. reflexivity.
  - exists p. split; [ exact Howner | ].
    split; [ rewrite Hothers; [ vm_compute; reflexivity | ] | ].
    + cbn. intros H; repeat destruct H as [H | H]; try discriminate H; exact H.
    + split; [ | split ].
      * destruct (Hdefaults "limit" JNull) as [_ H]; [ cbn; tauto | ].
        apply (H (JNum 10)). vm_compute. reflexivity.
      * destruct (Hdefaults "page" (JNum 1)) as [H _]; [ cbn; tauto | ].
        apply H. vm_compute. reflexivity.
      * destruct (Hdefaults "sortBy" JNull) as [H _]; [ cbn; tauto | ].
        apply H. vm_compute. reflexivity.
Defined.

(* ===================================================================== *)
(** ** Failures of the client *)
(* ===================================================================== *)

(** The falsy values. *)
Lemma truthy_false_iff (v : JsValue) :
  truthy v = false
  <-> v = JUndefined \/ v = JNull \/ v = JBool false \/ v = JNum 0 \/ v = JStr "".
Proof.
  split.
  - destruct v as [ | | [] | n | s | | ]; cbn; intros H;
      try discriminate H; auto.
    + apply negb_false_iff, Z.eqb_eq in H. subst. auto.
    + apply negb_false_iff, String.eqb_eq in H. subst. auto 6.
  - intros [-> | [-> | [-> | [-> | ->]]]]; reflexivity.
Qed.

(** Network failure: the rejection of [fetch] becomes the cause. *)
Lemma settle_network_failure (t : Thrown) :
  settle (Throw t)
  = Throw (ThrownError (ReadApiError "Failed to call ReadAPI" (instance_of_Error t))).
Proof. reflexivity. Qed.

(** A status outside 200..299: the cause is [Error("HTTP <status>")]. *)
Lemma settle_http_status (response : HttpResponse) :
  ok response = false ->
  settle (Normal response)
  = Throw (ThrownError
      (ReadApiError "Failed to call ReadAPI"
         (Some (Error (http_status_message response))))).
Proof. intros H. unfold settle. rewrite H. reflexivity. Qed.

(** A body that is not JSON: the rejection of [response.json()] becomes
    the cause. *)
Lemma settle_json_failure (response : HttpResponse) (t : Thrown) :
  ok response = true -> json response = Throw t ->
  settle (Normal response)
  = Throw (ThrownError (ReadApiError "Failed to call ReadAPI" (instance_of_Error t))).
Proof. intros H1 H2. unfold settle. rewrite H1, H2. reflexivity. Qed.

(** A parsed body with no truthy [result], the body being anything but
    [null]: the method's own "no result" error, without a cause. *)
Lemma unwrap_result_missing (no_result : string) (response : HttpResponse)
  (parsed : JsValue) :
  ok response = true -> json response = Normal parsed ->
  parsed <> JNull -> parsed <> JUndefined ->
  (forall o, parsed = JObj o -> truthy (prop o "result") = false) ->
  unwrap_result no_result (settle (Normal response))
  = Throw (ThrownError (ReadApiError no_result None)).
Proof.
  intros H1 H2 Hnull Hundef Hres. unfold unwrap_result, settle, cbind.
  rewrite H1, H2.
  destruct parsed as [ | | b | n | s | items | o ]; try reflexivity;
    try contradiction.
  cbn. rewrite (Hres o eq_refl). reflexivity.
Qed.

(** What a method can complete with: the truthy [result] of a parsed 2xx
    response, a [ReadApiError], or the TypeError of destructuring a body
    that is [null]. *)
Lemma unwrap_result_outcomes (no_result : string) (c : Completion HttpResponse) :
  match unwrap_result no_result (settle c) with
  | Normal v =>
      truthy v = true
      /\ exists response parsed,
           c = Normal response /\ ok response = true
           /\ json response = Normal parsed
           /\ get_property parsed "result" = Normal v
  | Throw (ThrownError e) =>
      is_ReadApiError e = true
      \/ (error_class e = ClsTypeError
          /\ exists response parsed,
               c = Normal response /\ ok response = true
               /\ json response = Normal parsed
               /\ (parsed = JNull \/ parsed = JUndefined))
  | Throw (ThrownValue _) => False
  end.
Proof.
  unfold unwrap_result, settle, cbind.
  destruct c as [response | t]; [ | left; reflexivity ].
  destruct (ok response) eqn:Hok; [ | left; reflexivity ].
  destruct (json response) as [parsed | t] eqn:Hjson; [ | left; reflexivity ].
  destruct parsed as [ | | b | n | s | items | o ]; cbn;
    try (left; reflexivity);
    try (right; split; [ reflexivity | ]; eexists _, _; eauto 10; fail).
  destruct (truthy (prop o "result")) eqn:Hres; [ | left; reflexivity ].
  split; [ exact Hres | ]. eexists _, _. eauto.
Qed.

(** The same for [getAsset] itself, whatever the endpoint does. *)
Lemma getAsset_outcomes
  {PublicKey : Type} (toBase58 : PublicKey -> string) (rpcEndpoint : string)
  (fetch : list HttpRequest -> HttpRequest -> Completion HttpResponse)
  (assetId : PublicKey) (log : list HttpRequest) :
  let settled :=
    fetch log (read_api_request rpcEndpoint "getAsset"
                 (JObj {[ "id" := JStr (toBase58 assetId) ]})) in
  match fst (getAsset toBase58 rpcEndpoint fetch assetId log) with
  | Normal v =>
      truthy v = true
      /\ exists response parsed,
           settled = Normal response /\ ok response = true
           /\ json response = Normal parsed
           /\ get_property parsed "result" = Normal v
  | Throw (ThrownError e) =>
      is_ReadApiError e = true
      \/ (error_class e = ClsTypeError
          /\ exists response parsed,
               settled = Normal response /\ ok response = true
               /\ json response = Normal parsed
               /\ (parsed = JNull \/ parsed = JUndefined))
  | Throw (ThrownValue _) => False
  end.
Proof. cbn zeta. rewrite getAsset_run. apply unwrap_result_outcomes. Qed.

(** A 404 and an unreachable endpoint, as the caller of [getAsset] sees
    them. *)
Lemma getAsset_http_404 :
  fst (getAsset Fixture.toBase58 Fixture.rpcEndpoint
         (Fixture.answers {| status := 404; json := Normal JNull |}) "Addr1" [])
  = Throw (ThrownError
      (ReadApiError "Failed to call ReadAPI" (Some (Error "HTTP 404")))).
Proof. rewrite getAsset_run. vm_compute. reflexivity. Qed.

Lemma getAsset_unreachable :
  fst (getAsset Fixture.toBase58 Fixture.rpcEndpoint Fixture.unreachable "Addr1" [])
  = Throw (ThrownError
      (ReadApiError "Failed to call ReadAPI" (Some (TypeError "fetch failed")))).
Proof. rewrite getAsset_run. vm_compute. reflexivity. Qed.

(** C10: when the endpoint answers with a 2xx response whose parsed body is
    an object in which [result] is present with a falsy value ([null],
    [false], [0] or the empty string), each of the four methods throws its
    "no result" [ReadApiError], the one it throws when [result] is absent,
    and returns nothing; the asset-list queries do so once their pagination
    is valid. *)
Theorem falsy_result_is_no_result
  {PublicKey : Type} (toBase58 : PublicKey -> string) (rpcEndpoint : string)
  (fetch : list HttpRequest -> HttpRequest -> Completion HttpResponse)
  (log : list HttpRequest) (response : HttpResponse)
  (o : gmap string JsValue) (v : JsValue)
  (assetId : PublicKey) (input : gmap string JsValue) :
  (forall request, fetch log request = Normal response) ->
  ok response = true ->
  json response = Normal (JObj o) ->
  o !! "result" = Some v ->
  In v [JNull; JBool false; JNum 0; JStr ""] ->
  fst (getAsset toBase58 rpcEndpoint fetch assetId log)
    = Throw (ThrownError (ReadApiError "No asset returned" None))
  /\ fst (getAssetProof toBase58 rpcEndpoint fetch assetId log)
    = Throw (ThrownError (ReadApiError "No asset proof returned" None))
  /\ (validatePagination (prop input "page") (prop input "before")
                         (prop input "after") = Normal tt ->
      fst (getAssetsByOwner rpcEndpoint fetch input log)
        = Throw (ThrownError (ReadApiError "No results returned" None))
      /\ fst (getAssetsByGroup rpcEndpoint fetch input log)
        = Throw (ThrownError (ReadApiError "No results returned" None))).
Proof.
  intros Hfetch Hok Hjson Hres Hfalsy.
  assert (Hmiss : forall msg request,
            unwrap_result msg (settle (fetch log request))
            = Throw (ThrownError (ReadApiError msg None))).
  { intros msg request. rewrite Hfetch.
    apply (unwrap_result_missing msg response (JObj o) Hok Hjson);
      try discriminate.
    intros o' [= <-]. unfold prop. rewrite Hres. cbn.
    apply truthy_false_iff. cbn in Hfalsy. intuition auto. }
  rewrite getAsset_run, getAssetProof_run, getAssetsByOwner_run,
    getAssetsByGroup_run. cbn [fst].
  split; [ apply Hmiss | split; [ apply Hmiss | ] ].
  intros ->. cbn [fst]. split; apply Hmiss.
Qed.

Lemma falsy_result_is_no_result_witness :
  let fetch :=
    Fixture.answers
      {| status := 200; json := Normal (JObj {[ "result" := JNum 0 ]}) |} in
  fst (getAsset Fixture.toBase58 Fixture.rpcEndpoint fetch "Addr1" [])
    = Throw (ThrownError (ReadApiError "No asset returned" None))
  /\ fst (getAssetProof Fixture.toBase58 Fixture.rpcEndpoint fetch "Addr1" [])
    = Throw (ThrownError (ReadApiError "No asset proof returned" None))
  /\ fst (getAssetsByOwner Fixture.rpcEndpoint fetch {[ "ownerAddress" := JStr "X" ]} [])
    = Throw (ThrownError (ReadApiError "No results returned" None))
  /\ fst (getAssetsByGroup Fixture.rpcEndpoint fetch {[ "ownerAddress" := JStr "X" ]} [])
    = Throw (ThrownError (ReadApiError "No results returned" None)).
Proof.
  cbn zeta.
  destruct (falsy_result_is_no_result
              Fixture.toBase58 Fixture.rpcEndpoint
              (Fixture.answers
                 {| status := 200; json := Normal (JObj {[ "result" := JNum 0 ]}) |})
              []
              {| status := 200; json := Normal (JObj {[ "result" := JNum 0 ]}) |}
              {[ "result" := JNum 0 ]} (JNum 0) "Addr1"
              {[ "ownerAddress" := JStr "X" ]})
    as (Hasset & Hproof & Hlist).
  - intros request. reflexivity.
  - reflexivity.
  - reflexivity.
  - vm_compute. reflexivity.
  - cbn. tauto.
  - split; [ exact Hasset | split; [ exact Hproof | ] ].
    apply Hlist. vm_compute. reflexivity.
Defined.

(** C4, the input at which it fails: the endpoint answers 200 with the JSON
    body [null].  [callReadApi] returns [null], destructuring it in
    [getAsset] throws a TypeError outside of any [try], and what reaches the
    caller is neither the result of the response nor a [ReadApiError]. *)
Theorem getAsset_null_body_TypeError :
  let fetch := Fixture.answers {| status := 200; json := Normal JNull |} in
  exists e,
    getAsset Fixture.toBase58 Fixture.rpcEndpoint fetch "Addr1" []
    = (Throw (ThrownError e),
       [read_api_request Fixture.rpcEndpoint "getAsset"
          (JObj {[ "id" := JStr "Addr1" ]})])
    /\ error_class e = ClsTypeError
    /\ is_ReadApiError e = false.
Proof. cbn zeta. eexists. rewrite getAsset_run. vm_compute. repeat split. Qed.

(** C5, the input at which it fails: with the JSON body [null] in a 200
    response, every method of the client lets a TypeError through instead of
    a [ReadApiError]. *)
Theorem null_body_escapes_as_TypeError :
  let fetch := Fixture.answers {| status := 200; json := Normal JNull |} in
  let input : gmap string JsValue := {[ "ownerAddress" := JStr "X" ]} in
  Forall (fun outcome : Completion JsValue =>
            exists e, outcome = Throw (ThrownError e)
                      /\ error_class e = ClsTypeError
                      /\ is_ReadApiError e = false)
    [ fst (getAsset Fixture.toBase58 Fixture.rpcEndpoint fetch "Addr1" []);
      fst (getAssetProof Fixture.toBase58 Fixture.rpcEndpoint fetch "Addr1" []);
      fst (getAssetsByOwner Fixture.rpcEndpoint fetch input []);
      fst (getAssetsByGroup Fixture.rpcEndpoint fetch input []) ].
Proof.
  cbn zeta. rewrite getAsset_run, getAssetProof_run, getAssetsByOwner_run,
    getAssetsByGroup_run.
  repeat constructor; eexists; vm_compute; repeat split.
Qed.

(* ===================================================================== *)
(** ** Little-endian bytes *)
(* ===================================================================== *)

Lemma length_le_bytes (len : nat) (n : N) : length (le_bytes len n) = len.
Proof. revert n. induction len as [ | len IH]; intros n; cbn; [ | rewrite IH ]; reflexivity. Qed.

Lemma to_N_byte_of_N (m : N) :
  (m < 256)%N -> Byte.to_N (byte_of_ascii (ascii_of_N m)) = m.
Proof.
  intros Hm. apply Byte.to_of_N.
  rewrite byte_of_ascii_via_N, (N_ascii_embedding m Hm). reflexivity.
Qed.

Lemma le_value_le_bytes (len : nat) (n : N) :
  le_value (le_bytes len n) = (n mod 256 ^ N.of_nat len)%N.
Proof.
  revert n. induction len as [ | len IH]; intros n.
  - cbn. symmetry. apply N.mod_1_r.
  - cbn [le_bytes le_value]. rewrite IH, Nat2N.inj_succ, N.pow_succ_r'.
    rewrite to_N_byte_of_N by (apply N.mod_lt; discriminate).
    symmetry. apply N.Div0.mod_mul_r.
Qed.

(** The eight bytes of a safe integer denote its magnitude. *)
Lemma leaf_bytes_value (leaf_id : Z) :
  Z.abs leaf_id < 2 ^ 53 ->
  Z.of_N (le_value (le_bytes 8 (Z.abs_N leaf_id))) = Z.abs leaf_id.
Proof.
  intros Hleaf. rewrite le_value_le_bytes, N.mod_small, N2Z.inj_abs_N.
  - reflexivity.
  - apply N2Z.inj_lt. rewrite N2Z.inj_abs_N.
    change (Z.of_N (256 ^ N.of_nat 8)) with (2 ^ 64). lia.
Qed.

(* ===================================================================== *)
(** ** The first entry a [find] returns *)
(* ===================================================================== *)

Lemma find_first {A : Type} (f : A -> bool) (l : list A) (a : A) :
  List.find f l = Some a ->
  exists pre post,
    l = (pre ++ a :: post)%list /\ f a = true
    /\ forall b, In b pre -> f b = false.
Proof.
  induction l as [ | x l IH]; cbn; [ discriminate | ].
  destruct (f x) eqn:Hx.
  - intros [= ->]. exists [], l. repeat split; [ exact Hx | intros b [] ].
  - intros Hfind. destruct (IH Hfind) as (pre & post & -> & Ha & Hpre).
    exists (x :: pre), post. repeat split; [ exact Ha | ].
    intros b [<- | Hb]; [ exact Hx | apply Hpre, Hb ].
Qed.

Lemma find_app_first {A : Type} (f : A -> bool) (pre post : list A) (a : A) :
  f a = true -> (forall b, In b pre -> f b = false) ->
  List.find f (pre ++ a :: post) = Some a.
Proof.
  intros Ha. induction pre as [ | x pre IH]; cbn; intros Hpre.
  - rewrite Ha. reflexivity.
  - rewrite (Hpre x (or_introl eq_refl)). apply IH.
    intros b Hb. apply Hpre. right. exact Hb.
Qed.

Lemma find_is_Some {A : Type} (f : A -> bool) (l : list A) (a : A) :
  In a l -> f a = true -> exists b, List.find f l = Some b.
Proof.
  intros Hin Ha. destruct (List.find f l) as [b | ] eqn:Hfind; [ eauto | ].
  rewrite (find_none f l Hfind a Hin) in Ha. discriminate Ha.
Qed.

(* ===================================================================== *)
(** ** The transformers on an asset *)
(* ===================================================================== *)

Section TransformerFacts.

Context {PublicKey Pda PdaData : Type}.
Variable new_PublicKey : string -> Completion PublicKey.
Variable toBuffer : PublicKey -> list byte.
Variable BUBBLEGUM_PROGRAM_ID : PublicKey.
Variable Pda_find : PublicKey -> list (list byte) -> Completion Pda.
Variable data : Pda -> PdaData.

Local Abbreviation toMetadata :=
  (toMetadataFromReadApiAsset new_PublicKey toBuffer BUBBLEGUM_PROGRAM_ID
     Pda_find data).
Local Abbreviation accepted :=
  (sdk_accepts new_PublicKey toBuffer BUBBLEGUM_PROGRAM_ID Pda_find).

Lemma has_full_scope_In (a : ReadApi.Authority) :
  has_full_scope a = true <-> In "full" (ReadApi.scopes a).
Proof.
  unfold has_full_scope. rewrite existsb_exists. split.
  - intros (s & Hin & Heq). apply String.eqb_eq in Heq. subst s. exact Hin.
  - intros Hin. exists "full". split; [ exact Hin | apply String.eqb_refl ].
Qed.

Lemma is_collection_eq (g : ReadApi.Grouping) :
  is_collection g = true <-> ReadApi.group_key g = "collection".
Proof. apply String.eqb_eq. Qed.

Lemma update_authority_None (input : ReadApi.Asset) :
  (forall l a, ReadApi.authorities input = Some l -> In a l ->
     ~ In "full" (ReadApi.scopes a)) ->
  update_authority input = None.
Proof.
  intros Hnone. unfold update_authority.
  destruct (ReadApi.authorities input) as [l | ]; [ | reflexivity ].
  destruct (List.find has_full_scope l) as [a | ] eqn:Hfind; [ | reflexivity ].
  destruct (find_some _ _ Hfind) as [Hin Hfull].
  exfalso. apply (Hnone l a eq_refl Hin), has_full_scope_In, Hfull.
Qed.

Lemma update_authority_Some (input : ReadApi.Asset) (l : list ReadApi.Authority) :
  ReadApi.authorities input = Some l ->
  (exists a, In a l /\ In "full" (ReadApi.scopes a)) ->
  exists pre a post,
    update_authority input = Some a
    /\ l = (pre ++ a :: post)%list
    /\ In "full" (ReadApi.scopes a)
    /\ forall b, In b pre -> ~ In "full" (ReadApi.scopes b).
Proof.
  intros Hl (a0 & Hin & Hfull). unfold update_authority. rewrite Hl.
  destruct (find_is_Some has_full_scope l a0 Hin) as [a Hfind];
    [ apply has_full_scope_In, Hfull | ].
  destruct (find_first _ _ _ Hfind) as (pre & post & Heq & Ha & Hpre).
  exists pre, a, post. repeat split; try assumption.
  - apply has_full_scope_In, Ha.
  - intros b Hb Hfullb. apply has_full_scope_In in Hfullb.
    rewrite (Hpre b Hb) in Hfullb. discriminate Hfullb.
Qed.

Lemma toMetadata_no_authority (input : ReadApi.Asset) :
  update_authority input = None ->
  toMetadata input
  = Throw (ThrownError
      (ReadApiError "No update authority with full scope found." None)).
Proof.
  unfold update_authority, toMetadataFromReadApiAsset. intros ->. reflexivity.
Qed.

(** Everything a returned metadata object tells about the run. *)
Lemma toMetadata_Normal (input : ReadApi.Asset) (m : Metadata.t PublicKey PdaData) :
  toMetadata input = Normal m ->
  exists authority tree pda,
    update_authority input = Some authority
    /\ new_PublicKey (ReadApi.tree (ReadApi.compression input)) = Normal tree
    /\ Z.abs (ReadApi.leaf_id (ReadApi.compression input)) < 2 ^ 53
    /\ Pda_find BUBBLEGUM_PROGRAM_ID
         [Buffer_from_utf8 "asset"; toBuffer tree;
          le_bytes 8 (Z.abs_N (ReadApi.leaf_id (ReadApi.compression input)))]
       = Normal pda
    /\ Metadata.address m = data pda
    /\ new_PublicKey (ReadApi.id input) = Normal (Metadata.mintAddress m)
    /\ new_PublicKey (ReadApi.address authority)
       = Normal (Metadata.updateAuthorityAddress m)
    /\ match List.find is_collection (ReadApi.grouping input) with
       | Some g =>
           exists k, new_PublicKey (ReadApi.group_value g) = Normal k
                     /\ Metadata.collection m
                        = Some {| Collection.address := k;
                                  Collection.verified := false |}
       | None => Metadata.collection m = None
       end
    /\ Metadata.compression m = ReadApi.compression input.
Proof.
  unfold toMetadataFromReadApiAsset. fold (update_authority input).
  destruct (update_authority input) as [authority | ]; [ | discriminate ].
  destruct (new_PublicKey (ReadApi.tree _)) as [tree | ] eqn:Htree;
    [ | discriminate ].
  unfold new_BN.
  destruct (Z.abs _ <? 2 ^ 53) eqn:Hleaf; [ | discriminate ].
  cbn [cbind]. unfold BN_toArray_le. cbn [magnitude].
  destruct (_ <? _)%N; [ | discriminate ]. cbn [cbind].
  destruct (Pda_find _ _) as [pda | ] eqn:Hpda; [ | discriminate ].
  cbn [cbind].
  destruct (new_PublicKey (ReadApi.id input)) as [kid | ] eqn:Hid;
    [ | discriminate ].
  cbn [cbind].
  destruct (new_PublicKey (ReadApi.address authority)) as [kauth | ] eqn:Hauth;
    [ | discriminate ].
  cbn [cbind]. intros Hm.
  exists authority, tree, pda.
  apply Z.ltb_lt in Hleaf.
  destruct (List.find is_collection (ReadApi.grouping input)) as [g | ].
  - destruct (new_PublicKey (ReadApi.group_value g)) as [k | ] eqn:Hk;
      [ | discriminate ].
    cbn [cbind] in Hm. injection Hm as <-. cbn.
    repeat split; try assumption. exists k. split; reflexivity.
  - cbn [cbind] in Hm. injection Hm as <-. cbn.
    repeat split; assumption.
Qed.

(** On an asset the SDK accepts, finding the authority is all it takes. *)
Lemma toMetadata_returns (input : ReadApi.Asset) (authority : ReadApi.Authority) :
  update_authority input = Some authority ->
  accepted input ->
  exists m, toMetadata input = Normal m.
Proof.
  intros Hauthority [Hid Htree Hleaf Hauths Hcolls].
  unfold toMetadataFromReadApiAsset. fold (update_authority input).
  rewrite Hauthority.
  destruct Htree as (tree & pda & -> & Hpda). cbn [cbind].
  unfold new_BN. rewrite (proj2 (Z.ltb_lt _ _) Hleaf). cbn [cbind].
  unfold BN_toArray_le. cbn [magnitude].
  assert (Hfit : (Z.abs_N (ReadApi.leaf_id (ReadApi.compression input))
                  <? 256 ^ N.of_nat 8)%N = true).
  { apply N.ltb_lt, N2Z.inj_lt. rewrite N2Z.inj_abs_N.
    change (Z.of_N (256 ^ N.of_nat 8)) with (2 ^ 64). lia. }
  rewrite Hfit. cbn [cbind]. rewrite Hpda. cbn [cbind].
  destruct Hid as [kid ->]. cbn [cbind].
  unfold update_authority in Hauthority.
  destruct (ReadApi.authorities input) as [l | ] eqn:Hl; [ | discriminate ].
  destruct (find_some _ _ Hauthority) as [Hin _].
  destruct (Hauths l authority eq_refl Hin) as [kauth ->]. cbn [cbind].
  destruct (List.find is_collection (ReadApi.grouping input)) as [g | ] eqn:Hg.
  - destruct (find_some _ _ Hg) as [Hgin Hgkey].
    destruct (Hcolls g Hgin (proj1 (is_collection_eq g) Hgkey)) as [k ->].
    cbn [cbind]. eauto.
  - cbn [cbind]. eauto.
Qed.

Lemma update_authority_first (input : ReadApi.Asset)
  (pre post : list ReadApi.Authority) (a : ReadApi.Authority) :
  ReadApi.authorities input = Some (pre ++ a :: post)%list ->
  In "full" (ReadApi.scopes a) ->
  (forall b, In b pre -> ~ In "full" (ReadApi.scopes b)) ->
  update_authority input = Some a.
Proof.
  intros Hl Ha Hpre. unfold update_authority. rewrite Hl.
  apply find_app_first; [ apply has_full_scope_In, Ha | ].
  intros b Hb. destruct (has_full_scope b) eqn:Hfull; [ | reflexivity ].
  exfalso. apply (Hpre b Hb), has_full_scope_In, Hfull.
Qed.

Lemma update_authority_exists (input : ReadApi.Asset) :
  (exists l a, ReadApi.authorities input = Some l /\ In a l
               /\ In "full" (ReadApi.scopes a)) ->
  exists a, update_authority input = Some a.
Proof.
  intros (l & a0 & Hl & Hin & Hfull).
  destruct (update_authority_Some input l Hl) as (pre & a & post & Hua & _);
    eauto.
Qed.

(** C6: when no entry of the authorities list has "full" among its scopes,
    the list being absent included, [toMetadataFromReadApiAsset] throws the
    "No update authority with full scope found." error and returns no
    metadata.  When the list has such entries and [a] is the first of them,
    every metadata object the transformer returns has the key built from
    the address of [a] as its update authority, and on an asset the SDK
    accepts it does return one. *)
Theorem metadata_update_authority (input : ReadApi.Asset) :
  ((forall l a, ReadApi.authorities input = Some l -> In a l ->
      ~ In "full" (ReadApi.scopes a)) ->
   toMetadata input
   = Throw (ThrownError
       (ReadApiError "No update authority with full scope found." None)))
  /\ (forall pre a post,
        ReadApi.authorities input = Some (pre ++ a :: post)%list ->
        In "full" (ReadApi.scopes a) ->
        (forall b, In b pre -> ~ In "full" (ReadApi.scopes b)) ->
        (forall m, toMetadata input = Normal m ->
           new_PublicKey (ReadApi.address a)
           = Normal (Metadata.updateAuthorityAddress m))
        /\ (accepted input -> exists m, toMetadata input = Normal m)).
Proof.
  split.
  - intros Hnone. apply toMetadata_no_authority, update_authority_None, Hnone.
  - intros pre a post Hl Ha Hpre.
    pose proof (update_authority_first input pre post a Hl Ha Hpre) as Hua.
    split.
    + intros m Hm.
      destruct (toMetadata_Normal input m Hm)
        as (a' & tree & pda & Hua' & _ & _ & _ & _ & _ & Hkey & _).
      rewrite Hua in Hua'. injection Hua' as <-. exact Hkey.
    + intros Hacc. apply (toMetadata_returns input a Hua Hacc).
Qed.

Lemma toMetadata_needs_accepted (input : ReadApi.Asset)
  (m : Metadata.t PublicKey PdaData) :
  toMetadata input = Normal m ->
  metadata_inputs_accepted new_PublicKey toBuffer BUBBLEGUM_PROGRAM_ID Pda_find
    input.
Proof.
  intros Hm.
  destruct (toMetadata_Normal input m Hm)
    as (a & t & p & Hua & Htree & Hleaf & Hpda & _ & Hid & Hauth & Hcoll & _).
  exists a, t, p. repeat (split; [ eauto; fail | ]).
  intros g Hg. rewrite Hg in Hcoll. destruct Hcoll as (k & Hk & _). eauto.
Qed.

Lemma toMetadata_if_accepted (input : ReadApi.Asset) :
  metadata_inputs_accepted new_PublicKey toBuffer BUBBLEGUM_PROGRAM_ID Pda_find
    input ->
  exists m, toMetadata input = Normal m.
Proof.
  intros (a & t & p & Hua & Htree & Hleaf & Hpda & [kid Hid] & [ka Hauth] & Hcoll).
  unfold toMetadataFromReadApiAsset. fold (update_authority input).
  rewrite Hua, Htree. cbn [cbind].
  unfold new_BN. rewrite (proj2 (Z.ltb_lt _ _) Hleaf). cbn [cbind].
  unfold BN_toArray_le. cbn [magnitude].
  assert (Hfit : (Z.abs_N (ReadApi.leaf_id (ReadApi.compression input))
                  <? 256 ^ N.of_nat 8)%N = true).
  { apply N.ltb_lt, N2Z.inj_lt. rewrite N2Z.inj_abs_N.
    change (Z.of_N (256 ^ N.of_nat 8)) with (2 ^ 64). lia. }
  rewrite Hfit. cbn [cbind]. rewrite Hpda. cbn [cbind].
  rewrite Hid. cbn [cbind]. rewrite Hauth. cbn [cbind].
  destruct (List.find is_collection (ReadApi.grouping input)) as [g | ].
  - destruct (Hcoll g eq_refl) as [k ->]. cbn [cbind]. eauto.
  - cbn [cbind]. eauto.
Qed.

(** An unsafe leaf index makes the transformer throw whatever the SDK does
    with the addresses. *)
Lemma toMetadata_unsafe_leaf_throws (input : ReadApi.Asset) :
  2 ^ 53 <= Z.abs (ReadApi.leaf_id (ReadApi.compression input)) ->
  exists t, toMetadata input = Throw t.
Proof.
  intros Hleaf. destruct (toMetadata input) as [m | t] eqn:Hm; [ | eauto ].
  destruct (toMetadata_Normal input m Hm) as (_ & _ & _ & _ & _ & H & _). lia.
Qed.

(** C7, amended: the transformer returns exactly on the assets that have a
    full-scope authority and that the SDK accepts in what the transformer
    hands to it (tree address, safe leaf index, seeds, asset id, address of
    the first full-scope authority, value of the first "collection"
    grouping if any); everywhere else it throws, and a missing collection
    entry is never the reason.  Whenever it returns, the collection is null
    if no grouping entry has the key "collection"; and if [g] is the first
    entry with that key, the collection is the key built from the value of
    [g] with [verified] false.  No returned collection is verified. *)
Theorem metadata_collection_of_returned (input : ReadApi.Asset) :
  ((exists m, toMetadata input = Normal m)
   <-> metadata_inputs_accepted new_PublicKey toBuffer BUBBLEGUM_PROGRAM_ID
         Pda_find input)
  /\ (forall m, toMetadata input = Normal m ->
        ((forall g, In g (ReadApi.grouping input) ->
            ReadApi.group_key g <> "collection") ->
         Metadata.collection m = None)
        /\ (forall pre g post,
              ReadApi.grouping input = (pre ++ g :: post)%list ->
              ReadApi.group_key g = "collection" ->
              (forall h, In h pre -> ReadApi.group_key h <> "collection") ->
              exists k,
                new_PublicKey (ReadApi.group_value g) = Normal k
                /\ Metadata.collection m
                   = Some {| Collection.address := k;
                             Collection.verified := false |})
        /\ (forall c, Metadata.collection m = Some c ->
              Collection.verified c = false)).
Proof.
  split.
  - split.
    + intros [m Hm]. apply (toMetadata_needs_accepted input m Hm).
    + apply toMetadata_if_accepted.
  - intros m Hm.
    destruct (toMetadata_Normal input m Hm)
      as (a1 & t1 & p1 & _ & _ & _ & _ & _ & _ & _ & Hcoll & _).
    split; [ | split ].
    + intros Hnone.
      destruct (List.find is_collection (ReadApi.grouping input)) as [g | ] eqn:Hg;
        [ | exact Hcoll ].
      destruct (find_some _ _ Hg) as [Hin Hkey].
      exfalso. apply (Hnone g Hin), is_collection_eq, Hkey.
    + intros pre g post Hgrouping Hkey Hpre.
      assert (Hg : List.find is_collection (ReadApi.grouping input) = Some g).
      { rewrite Hgrouping. apply find_app_first; [ apply is_collection_eq, Hkey | ].
        intros h Hh. destruct (is_collection h) eqn:E; [ | reflexivity ].
        exfalso. apply (Hpre h Hh), is_collection_eq, E. }
      rewrite Hg in Hcoll. exact Hcoll.
    + intros c Hc.
      destruct (List.find is_collection (ReadApi.grouping input)) as [g | ].
      * destruct Hcoll as (k & _ & Hc'). rewrite Hc in Hc'.
        injection Hc' as ->. reflexivity.
      * rewrite Hc in Hcoll. discriminate Hcoll.
Qed.

(** The seeds of line 390-394: on an asset with a full-scope authority that
    the SDK accepts, [Pda.find] is called on the Bubblegum program with
    exactly three seeds, the five bytes of "asset", the bytes of the key
    built from the tree address, and eight bytes that denote the leaf index
    in little-endian order; the address of the metadata is what the member
    [data] of the result reads as. *)
Lemma metadata_address_seeds (input : ReadApi.Asset) :
  (exists l a, ReadApi.authorities input = Some l /\ In a l
               /\ In "full" (ReadApi.scopes a)) ->
  accepted input ->
  exists m tree leaf_bytes pda,
    toMetadata input = Normal m
    /\ new_PublicKey (ReadApi.tree (ReadApi.compression input)) = Normal tree
    /\ length leaf_bytes = 8%nat
    /\ Z.of_N (le_value leaf_bytes)
       = Z.abs (ReadApi.leaf_id (ReadApi.compression input))
    /\ Pda_find BUBBLEGUM_PROGRAM_ID
         [[x61; x73; x73; x65; x74]; toBuffer tree; leaf_bytes]
       = Normal pda
    /\ Metadata.address m = data pda.
Proof.
  intros Hfull Hacc.
  destruct (update_authority_exists input Hfull) as [a Hua].
  destruct (toMetadata_returns input a Hua Hacc) as [m Hm].
  destruct (toMetadata_Normal input m Hm)
    as (a1 & tree & pda & _ & Htree & Hleaf & Hpda & Haddr & _).
  exists m, tree,
    (le_bytes 8 (Z.abs_N (ReadApi.leaf_id (ReadApi.compression input)))), pda.
  split; [ exact Hm | ]. split; [ exact Htree | ].
  split; [ apply length_le_bytes | ].
  split; [ apply leaf_bytes_value, Hleaf | ].
  split; [ exact Hpda | exact Haddr ].
Qed.

(** The only way for [toMintFromReadApiAsset] to throw is the [PublicKey]
    constructor refusing the id. *)
Lemma mint_of_asset_throws (input : ReadApi.Asset) (t : Thrown) :
  toMintFromReadApiAsset new_PublicKey input = Throw t
  <-> new_PublicKey (ReadApi.id input) = Throw t.
Proof.
  unfold toMintFromReadApiAsset.
  destruct (new_PublicKey (ReadApi.id input)) as [key | t']; cbn [cbind].
  - split; discriminate.
  - split; intros [= ->]; reflexivity.
Qed.

(** C9, amended: [toMintFromReadApiAsset] completes as the [PublicKey]
    constructor does on the asset's id.  Where the constructor accepts the
    id, it returns a mint with decimals 0, a supply of one basis point in a
    currency of 0 decimals, and the key of the id as address, mint
    authority and freeze authority.  Where the constructor refuses the id,
    it throws what the constructor throws; it fails in no other way. *)
Theorem mint_of_asset_exact (input : ReadApi.Asset) :
  (forall key, new_PublicKey (ReadApi.id input) = Normal key ->
     exists m,
       toMintFromReadApiAsset new_PublicKey input = Normal m
       /\ Mint.decimals m = 0
       /\ Mint.supply m
          = amount 1
              {| symbol := "Token"; decimals := 0; namespace := "spl-token" |}
       /\ basisPoints (Mint.supply m) = 1
       /\ Mint.address m = key
       /\ Mint.mintAuthorityAddress m = key
       /\ Mint.freezeAuthorityAddress m = key)
  /\ (forall t, new_PublicKey (ReadApi.id input) = Throw t ->
        toMintFromReadApiAsset new_PublicKey input = Throw t)
  /\ (forall t, toMintFromReadApiAsset new_PublicKey input = Throw t ->
        new_PublicKey (ReadApi.id input) = Throw t).
Proof.
  split; [ | split ].
  - intros key Hkey. unfold toMintFromReadApiAsset. rewrite Hkey. cbn [cbind].
    eexists. split; [ reflexivity | ]. cbn. repeat split.
  - intros t Ht. apply mint_of_asset_throws, Ht.
  - intros t Ht. apply mint_of_asset_throws, Ht.
Qed.

End TransformerFacts.

(* ===================================================================== *)
(** ** The transformers on the fixtures *)
(* ===================================================================== *)

Lemma fixture_has_full_scope (grouping : list ReadApi.Grouping) :
  exists l a,
    ReadApi.authorities (Fixture.asset grouping) = Some l /\ In a l
    /\ In "full" (ReadApi.scopes a).
Proof.
  eexists _, {| ReadApi.address := "Auth1"; ReadApi.scopes := ["full"] |}.
  split; [ reflexivity | ]. cbn. tauto.
Qed.

Lemma fixture_accepted (grouping : list ReadApi.Grouping) :
  (forall g, In g grouping -> ReadApi.group_value g <> "") ->
  sdk_accepts Fixture.new_PublicKey Fixture.toBuffer
    Fixture.BUBBLEGUM_PROGRAM_ID Fixture.Pda_find (Fixture.asset grouping).
Proof.
  intros Hvalues. constructor.
  - eexists. reflexivity.
  - eexists _, _. split; reflexivity.
  - cbn. lia.
  - intros l a [= <-] [<- | [<- | []]]; eexists; reflexivity.
  - intros g Hg _. unfold Fixture.new_PublicKey.
    destruct (String.eqb_spec (ReadApi.group_value g) "") as [E | _];
      [ destruct (Hvalues g Hg E) | eauto ].
Qed.

Lemma metadata_update_authority_witness :
  (exists m,
     toMetadataFromReadApiAsset Fixture.new_PublicKey Fixture.toBuffer
       Fixture.BUBBLEGUM_PROGRAM_ID Fixture.Pda_find Fixture.data
       (Fixture.asset Fixture.in_collection) = Normal m)
  /\ (forall m,
        toMetadataFromReadApiAsset Fixture.new_PublicKey Fixture.toBuffer
          Fixture.BUBBLEGUM_PROGRAM_ID Fixture.Pda_find Fixture.data
          (Fixture.asset Fixture.in_collection) = Normal m ->
        Normal "Auth1" = Normal (Metadata.updateAuthorityAddress m)).
Proof.
  destruct (metadata_update_authority
              Fixture.new_PublicKey Fixture.toBuffer
              Fixture.BUBBLEGUM_PROGRAM_ID Fixture.Pda_find Fixture.data
              (Fixture.asset Fixture.in_collection)) as [_ Hsome].
  destruct (Hsome
              [ {| ReadApi.address := "Auth0"; ReadApi.scopes := ["royalty"] |} ]
              {| ReadApi.address := "Auth1"; ReadApi.scopes := ["full"] |}
              []) as [Hkey Hreturns].
  - reflexivity.
  - cbn. tauto.
  - cbn. intros b [<- | []]. cbn. intros [E | []]. discriminate E.
  - split; [ | exact Hkey ].
    apply Hreturns, fixture_accepted.
    cbn. intros g [<- | []]. discriminate.
Defined.

Lemma fixture_inputs_accepted :
  metadata_inputs_accepted Fixture.new_PublicKey Fixture.toBuffer
    Fixture.BUBBLEGUM_PROGRAM_ID Fixture.Pda_find
    (Fixture.asset Fixture.in_collection).
Proof.
  eexists _, _, _. split; [ reflexivity | ]. split; [ reflexivity | ].
  split; [ cbn; lia | ]. split; [ reflexivity | ].
  split; [ eexists; reflexivity | ]. split; [ eexists; reflexivity | ].
  intros g [= <-]. eexists. reflexivity.
Qed.

Lemma metadata_collection_of_returned_witness :
  exists m k,
    toMetadataFromReadApiAsset Fixture.new_PublicKey Fixture.toBuffer
      Fixture.BUBBLEGUM_PROGRAM_ID Fixture.Pda_find Fixture.data
      (Fixture.asset Fixture.in_collection) = Normal m
    /\ Fixture.new_PublicKey "Coll1" = Normal k
    /\ Metadata.collection m
       = Some {| Collection.address := k; Collection.verified := false |}.
Proof.
  destruct (metadata_collection_of_returned
              Fixture.new_PublicKey Fixture.toBuffer
              Fixture.BUBBLEGUM_PROGRAM_ID Fixture.Pda_find Fixture.data
              (Fixture.asset Fixture.in_collection)) as [Hiff Hreturned].
  destruct (proj2 Hiff fixture_inputs_accepted) as [m Hm].
  destruct (Hreturned m Hm) as (_ & Hfirst & _).
  destruct (Hfirst []
              {| ReadApi.group_key := "collection"; ReadApi.group_value := "Coll1" |}
              []) as (k & Hk & Hc).
  - reflexivity.
  - reflexivity.
  - intros h [].
  - exists m, k. auto.
Defined.

(** C7, as stated, fails: this asset has a full-scope authority and no
    "collection" grouping, and the transformer does not return a metadata
    object with a null collection; it throws, because [new BN] refuses the
    leaf index 2^53. *)
Lemma metadata_throws_without_collection :
  let input := Edge.asset "Addr1" (2 ^ 53) in
  (exists l a, ReadApi.authorities input = Some l /\ In a l
               /\ In "full" (ReadApi.scopes a))
  /\ (forall g, In g (ReadApi.grouping input) ->
        ReadApi.group_key g <> "collection")
  /\ toMetadataFromReadApiAsset Fixture.new_PublicKey Fixture.toBuffer
       Fixture.BUBBLEGUM_PROGRAM_ID Fixture.Pda_find Fixture.data input
     = Throw (ThrownError (Error "Assertion failed")).
Proof.
  cbn zeta. split; [ | split ].
  - eexists _, {| ReadApi.address := "Auth1"; ReadApi.scopes := ["full"] |}.
    split; [ reflexivity | ]. cbn. tauto.
  - intros g [].
  - vm_compute. reflexivity.
Qed.

(** On the SDK's [Pda], whatever the seeds give, the address is
    [undefined]. *)
Lemma metadata_address_of_SdkPda
  {PublicKey : Type} (new_PublicKey : string -> Completion PublicKey)
  (toBuffer : PublicKey -> list byte) (BUBBLEGUM_PROGRAM_ID : PublicKey)
  (Pda_find : PublicKey -> list (list byte) -> Completion (SdkPda.t PublicKey))
  (input : ReadApi.Asset) (m : Metadata.t PublicKey JsValue) :
  toMetadataFromReadApiAsset new_PublicKey toBuffer BUBBLEGUM_PROGRAM_ID
    Pda_find SdkPda.data input = Normal m ->
  Metadata.address m = JUndefined.
Proof.
  intros Hm.
  destruct (toMetadata_Normal _ _ _ _ _ input m Hm)
    as (a & t & p & _ & _ & _ & _ & Haddr & _).
  exact Haddr.
Qed.


Lemma metadata_address_seeds_witness :
  exists m tree leaf_bytes pda,
    toMetadataFromReadApiAsset Fixture.new_PublicKey Fixture.toBuffer
      Fixture.BUBBLEGUM_PROGRAM_ID Fixture.Pda_find Fixture.data
      (Fixture.asset []) = Normal m
    /\ Fixture.new_PublicKey "Tree1" = Normal tree
    /\ length leaf_bytes = 8%nat
    /\ Z.of_N (le_value leaf_bytes) = 258
    /\ Fixture.Pda_find Fixture.BUBBLEGUM_PROGRAM_ID
         [[x61; x73; x73; x65; x74]; Fixture.toBuffer tree; leaf_bytes]
       = Normal pda
    /\ Metadata.address m = Fixture.data pda.
Proof.
  apply (metadata_address_seeds
           Fixture.new_PublicKey Fixture.toBuffer
           Fixture.BUBBLEGUM_PROGRAM_ID Fixture.Pda_find Fixture.data
           (Fixture.asset [])).
  - apply fixture_has_full_scope.
  - apply fixture_accepted. intros g [].
Defined.

(** The leaf index 258 of the fixture is the seed [02 01 00 00 00 00 00 00]. *)
Lemma fixture_leaf_seed :
  cbind (new_BN 258) (fun leaf => BN_toArray_le leaf 8)
  = Normal [x02; x01; x00; x00; x00; x00; x00; x00].
Proof. vm_compute. reflexivity. Qed.

Lemma mint_of_asset_exact_witness :
  exists m,
    toMintFromReadApiAsset Fixture.new_PublicKey (Fixture.asset []) = Normal m
    /\ Mint.decimals m = 0
    /\ Mint.supply m
       = amount 1 {| symbol := "Token"; decimals := 0; namespace := "spl-token" |}
    /\ basisPoints (Mint.supply m) = 1
    /\ Mint.address m = "Addr1"
    /\ Mint.mintAuthorityAddress m = "Addr1"
    /\ Mint.freezeAuthorityAddress m = "Addr1".
Proof.
  apply (proj1 (mint_of_asset_exact Fixture.new_PublicKey (Fixture.asset [])) "Addr1").
  reflexivity.
Defined.

(** C9, as stated, fails: on an asset whose id the [PublicKey] constructor
    refuses (the empty string is not the base-58 form of 32 bytes),
    [toMintFromReadApiAsset] throws the constructor's error. *)
Lemma mint_of_refused_id_throws :
  toMintFromReadApiAsset Fixture.new_PublicKey (Edge.asset "" 0)
  = Throw (ThrownError (Error "Invalid public key input")).
Proof. reflexivity. Qed.

(** The spec's end-to-end scenario on the fixture: the update authority is
    "Auth1" and the collection is "Coll1", not verified. *)
Lemma fixture_metadata :
  exists m,
    toMetadataFromReadApiAsset Fixture.new_PublicKey Fixture.toBuffer
      Fixture.BUBBLEGUM_PROGRAM_ID Fixture.Pda_find Fixture.data
      (Fixture.asset Fixture.in_collection) = Normal m
    /\ Metadata.updateAuthorityAddress m = "Auth1"
    /\ Metadata.collection m
       = Some {| Collection.address := "Coll1"; Collection.verified := false |}
    /\ Metadata.name m = "NFT Name"
    /\ Metadata.symbol m = "".
Proof. eexists. split; [ vm_compute; reflexivity | ]. cbn. repeat split. Qed.

(* ===================================================================== *)
(** ** More on the client *)
(* ===================================================================== *)

Lemma client_runs_settled
  {PublicKey : Type} (toBase58 : PublicKey -> string) (rpcEndpoint : string)
  (fetch : list HttpRequest -> HttpRequest -> Completion HttpResponse)
  (assetId : PublicKey) (input : gmap string JsValue) (log : list HttpRequest) :
  validatePagination (prop input "page") (prop input "before")
                     (prop input "after") = Normal tt ->
  Forall (fun '(no_result, request, outcome) =>
            outcome = unwrap_result no_result (settle (fetch log request)))
    (client_runs toBase58 rpcEndpoint fetch assetId input log).
Proof.
  intros Hvalid. unfold client_runs.
  rewrite getAsset_run, getAssetProof_run, getAssetsByGroup_run,
    getAssetsByOwner_run, Hvalid.
  repeat constructor.
Qed.

(** X1: Every method hands exactly one request to [fetch], whether it then
    returns or throws: a POST to the endpoint with a JSON content type and
    the envelope [{jsonrpc: "2.0", method, id: "rpd-op-123", params}].
    Nothing is retried. *)
Theorem one_fetch_per_call
  {PublicKey : Type} (toBase58 : PublicKey -> string) (rpcEndpoint : string)
  (fetch : list HttpRequest -> HttpRequest -> Completion HttpResponse)
  (assetId : PublicKey) (input : gmap string JsValue) (log : list HttpRequest) :
  validatePagination (prop input "page") (prop input "before")
                     (prop input "after") = Normal tt ->
  let sent (name : string) (p : JsValue) : list HttpRequest :=
    (log ++ [ {| url := rpcEndpoint;
                 http_method := "POST";
                 headers := [("Content-Type", "application/json")];
                 body := JObj {[ "jsonrpc" := JStr "2.0"; "method" := JStr name;
                                 "id" := JStr "rpd-op-123"; "params" := p ]} |} ])%list in
  snd (getAsset toBase58 rpcEndpoint fetch assetId log)
    = sent "getAsset" (JObj {[ "id" := JStr (toBase58 assetId) ]})
  /\ snd (getAssetProof toBase58 rpcEndpoint fetch assetId log)
    = sent "getAssetProof" (JObj {[ "id" := JStr (toBase58 assetId) ]})
  /\ snd (getAssetsByGroup rpcEndpoint fetch input log)
    = sent "getAssetsByGroup" (JObj (list_params input))
  /\ snd (getAssetsByOwner rpcEndpoint fetch input log)
    = sent "getAssetsByOwner" (JObj (list_params input)).
Proof.
  intros Hvalid. cbn zeta.
  rewrite getAsset_run, getAssetProof_run, getAssetsByGroup_run,
    getAssetsByOwner_run, Hvalid. cbn [snd].
  assert (Hreq : forall name p,
            read_api_request rpcEndpoint name p
            = {| url := rpcEndpoint;
                 http_method := "POST";
                 headers := [("Content-Type", "application/json")];
                 body := JObj {[ "jsonrpc" := JStr "2.0"; "method" := JStr name;
                                 "id" := JStr "rpd-op-123"; "params" := p ]} |}).
  { intros name p. reflexivity. }
  rewrite <- !Hreq. repeat split.
Qed.

Lemma one_fetch_per_call_witness :
  snd (getAssetProof Fixture.toBase58 Fixture.rpcEndpoint Fixture.unreachable
         "Addr1" [])
  = [ {| url := Fixture.rpcEndpoint;
         http_method := "POST";
         headers := [("Content-Type", "application/json")];
         body := JObj {[ "jsonrpc" := JStr "2.0";
                         "method" := JStr "getAssetProof";
                         "id" := JStr "rpd-op-123";
                         "params" := JObj {[ "id" := JStr "Addr1" ]} ]} |} ].
Proof.
  destruct (one_fetch_per_call Fixture.toBase58 Fixture.rpcEndpoint
              Fixture.unreachable "Addr1" ∅ []) as (_ & Hproof & _).
  - vm_compute. reflexivity.
  - exact Hproof.
Defined.

Lemma unwrap_result_Normal_iff (no_result : string)
  (c : Completion HttpResponse) (v : JsValue) :
  unwrap_result no_result (settle c) = Normal v
  <-> exists response parsed,
        c = Normal response /\ ok response = true
        /\ json response = Normal parsed
        /\ get_property parsed "result" = Normal v
        /\ truthy v = true.
Proof.
  split.
  - intros Hv. pose proof (unwrap_result_outcomes no_result c) as Hout.
    rewrite Hv in Hout. destruct Hout as (Ht & response & parsed & H).
    exists response, parsed. tauto.
  - intros (response & parsed & -> & Hok & Hjson & Hres & Ht).
    unfold unwrap_result, settle, cbind. rewrite Hok, Hjson, Hres, Ht.
    reflexivity.
Qed.

(** X2: A method returns a value exactly when [fetch] settled with a 2xx
    response whose body parsed and has a truthy [result]; the value is that
    [result], untouched. *)
Theorem client_returns_iff
  {PublicKey : Type} (toBase58 : PublicKey -> string) (rpcEndpoint : string)
  (fetch : list HttpRequest -> HttpRequest -> Completion HttpResponse)
  (assetId : PublicKey) (input : gmap string JsValue) (log : list HttpRequest) :
  validatePagination (prop input "page") (prop input "before")
                     (prop input "after") = Normal tt ->
  Forall (fun '(_, request, outcome) =>
            forall v,
              outcome = Normal v
              <-> exists response parsed,
                    fetch log request = Normal response
                    /\ ok response = true
                    /\ json response = Normal parsed
                    /\ get_property parsed "result" = Normal v
                    /\ truthy v = true)
    (client_runs toBase58 rpcEndpoint fetch assetId input log).
Proof.
  intros Hvalid.
  eapply Forall_impl;
    [ apply (client_runs_settled toBase58 rpcEndpoint fetch assetId input log Hvalid) | ].
  intros [[no_result request] outcome] -> v. apply unwrap_result_Normal_iff.
Qed.

Lemma client_returns_iff_witness :
  let result := JObj {[ "id" := JStr "Addr1" ]} in
  let fetch :=
    Fixture.answers
      {| status := 200; json := Normal (JObj {[ "result" := result ]}) |} in
  fst (getAsset Fixture.toBase58 Fixture.rpcEndpoint fetch "Addr1" [])
  = Normal result.
Proof.
  cbn zeta.
  pose proof (client_returns_iff
                Fixture.toBase58 Fixture.rpcEndpoint
                (Fixture.answers
                   {| status := 200;
                      json := Normal (JObj {[ "result" := JObj {[ "id" := JStr "Addr1" ]} ]}) |})
                "Addr1" ∅ [] eq_refl) as Hruns.
  apply Forall_cons_1, proj1 in Hruns. apply Hruns.
  eexists _, _. repeat split; vm_compute; reflexivity.
Defined.

(** X3: When [fetch] rejects, or the body of a 2xx response does not parse,
    every method throws [ReadApiError("Failed to call ReadAPI")]; the cause
    is what was thrown if that is an [Error], and is dropped otherwise. *)
Theorem transport_failure_keeps_cause
  {PublicKey : Type} (toBase58 : PublicKey -> string) (rpcEndpoint : string)
  (fetch : list HttpRequest -> HttpRequest -> Completion HttpResponse)
  (assetId : PublicKey) (input : gmap string JsValue) (log : list HttpRequest)
  (t : Thrown) :
  validatePagination (prop input "page") (prop input "before")
                     (prop input "after") = Normal tt ->
  (forall request,
     fetch log request = Throw t
     \/ exists response,
          fetch log request = Normal response
          /\ ok response = true /\ json response = Throw t) ->
  Forall (fun '(_, _, outcome) =>
            outcome
            = Throw (ThrownError
                (ReadApiError "Failed to call ReadAPI"
                   match t with
                   | ThrownError e => Some e
                   | ThrownValue _ => None
                   end)))
    (client_runs toBase58 rpcEndpoint fetch assetId input log).
Proof.
  intros Hvalid Hfetch.
  eapply Forall_impl;
    [ apply (client_runs_settled toBase58 rpcEndpoint fetch assetId input log Hvalid) | ].
  intros [[no_result request] outcome] ->.
  destruct (Hfetch request) as [-> | (response & -> & Hok & Hjson)].
  - destruct t; reflexivity.
  - unfold unwrap_result, settle, cbind. rewrite Hok, Hjson.
    destruct t; reflexivity.
Qed.

Lemma transport_failure_keeps_cause_witness :
  fst (getAssetProof Fixture.toBase58 Fixture.rpcEndpoint
         (fun _ _ => Throw (ThrownValue (JStr "offline"))) "Addr1" [])
  = Throw (ThrownError (ReadApiError "Failed to call ReadAPI" None)).
Proof.
  pose proof (transport_failure_keeps_cause
                Fixture.toBase58 Fixture.rpcEndpoint
                (fun _ _ => Throw (ThrownValue (JStr "offline")))
                "Addr1" ∅ [] (ThrownValue (JStr "offline")) eq_refl
                (fun _ => or_introl eq_refl)) as Hruns.
  apply Forall_cons_1, proj2, Forall_cons_1, proj1 in Hruns. exact Hruns.
Defined.

(** X4: The status is looked at before the body: a response outside 200..299
    makes every method throw [ReadApiError("Failed to call ReadAPI")] with
    the cause [Error("HTTP <status>")], whatever the body holds, a good
    [result] included. *)
Theorem http_status_precedes_body
  {PublicKey : Type} (toBase58 : PublicKey -> string) (rpcEndpoint : string)
  (fetch : list HttpRequest -> HttpRequest -> Completion HttpResponse)
  (assetId : PublicKey) (input : gmap string JsValue) (log : list HttpRequest)
  (response : HttpResponse) :
  validatePagination (prop input "page") (prop input "before")
                     (prop input "after") = Normal tt ->
  (forall request, fetch log request = Normal response) ->
  status response < 200 \/ 299 < status response ->
  Forall (fun '(_, _, outcome) =>
            outcome
            = Throw (ThrownError
                (ReadApiError "Failed to call ReadAPI"
                   (Some (Error ("HTTP " +:+
                      NilZero.string_of_int (Z.to_int (status response))))))))
    (client_runs toBase58 rpcEndpoint fetch assetId input log).
Proof.
  intros Hvalid Hfetch Hstatus.
  eapply Forall_impl;
    [ apply (client_runs_settled toBase58 rpcEndpoint fetch assetId input log Hvalid) | ].
  intros [[no_result request] outcome] ->. rewrite Hfetch.
  rewrite settle_http_status; [ reflexivity | ].
  unfold ok. apply andb_false_iff.
  destruct Hstatus; [ left; apply Z.leb_gt | right; apply Z.leb_gt ]; assumption.
Qed.

Lemma http_status_precedes_body_witness :
  fst (getAssetsByOwner Fixture.rpcEndpoint
         (Fixture.answers
            {| status := 503;
               json := Normal (JObj {[ "result" := JArr [JStr "Addr1"] ]}) |})
         {[ "ownerAddress" := JStr "X" ]} [])
  = Throw (ThrownError
      (ReadApiError "Failed to call ReadAPI" (Some (Error "HTTP 503")))).
Proof.
  pose proof (http_status_precedes_body
                Fixture.toBase58 Fixture.rpcEndpoint
                (Fixture.answers
                   {| status := 503;
                      json := Normal (JObj {[ "result" := JArr [JStr "Addr1"] ]}) |})
                "Addr1" {[ "ownerAddress" := JStr "X" ]} []
                {| status := 503;
                   json := Normal (JObj {[ "result" := JArr [JStr "Addr1"] ]}) |}
                eq_refl (fun _ => eq_refl)) as Hruns.
  apply Forall_cons_1, proj2, Forall_cons_1, proj2, Forall_cons_1, proj2,
    Forall_cons_1, proj1 in Hruns; [ exact Hruns | ].
  right. cbn. lia.
Defined.

(** X5: A 2xx response whose body is an object without [result], a JSON-RPC
    error response for one, makes each method throw its "no result"
    [ReadApiError] with no cause: nothing else of the body reaches the
    caller. *)
Theorem error_envelope_is_no_result
  {PublicKey : Type} (toBase58 : PublicKey -> string) (rpcEndpoint : string)
  (fetch : list HttpRequest -> HttpRequest -> Completion HttpResponse)
  (assetId : PublicKey) (input : gmap string JsValue) (log : list HttpRequest)
  (response : HttpResponse) (envelope : gmap string JsValue) :
  validatePagination (prop input "page") (prop input "before")
                     (prop input "after") = Normal tt ->
  (forall request, fetch log request = Normal response) ->
  ok response = true ->
  json response = Normal (JObj envelope) ->
  envelope !! "result" = None ->
  Forall (fun '(no_result, _, outcome) =>
            outcome = Throw (ThrownError (ReadApiError no_result None)))
    (client_runs toBase58 rpcEndpoint fetch assetId input log).
Proof.
  intros Hvalid Hfetch Hok Hjson Hres.
  eapply Forall_impl;
    [ apply (client_runs_settled toBase58 rpcEndpoint fetch assetId input log Hvalid) | ].
  intros [[no_result request] outcome] ->. rewrite Hfetch.
  apply (unwrap_result_missing no_result response (JObj envelope) Hok Hjson);
    try discriminate.
  intros o [= <-]. unfold prop. rewrite Hres. reflexivity.
Qed.

Lemma error_envelope_is_no_result_witness :
  let envelope : gmap string JsValue :=
    {[ "jsonrpc" := JStr "2.0";
       "error" := JObj {[ "code" := JNum (-32601);
                          "message" := JStr "Method not found" ]} ]} in
  fst (getAsset Fixture.toBase58 Fixture.rpcEndpoint
         (Fixture.answers {| status := 200; json := Normal (JObj envelope) |})
         "Addr1" [])
  = Throw (ThrownError (ReadApiError "No asset returned" None)).
Proof.
  cbn zeta.
  pose proof (error_envelope_is_no_result
                Fixture.toBase58 Fixture.rpcEndpoint
                (Fixture.answers
                   {| status := 200;
                      json := Normal (JObj
                        {[ "jsonrpc" := JStr "2.0";
                           "error" := JObj {[ "code" := JNum (-32601);
                                              "message" := JStr "Method not found" ]} ]}) |})
                "Addr1" ∅ [] _ _ eq_refl (fun _ => eq_refl) eq_refl eq_refl)
    as Hruns.
  apply Forall_cons_1, proj1 in Hruns; [ exact Hruns | ].
  vm_compute. reflexivity.
Defined.

(* ===================================================================== *)
(** ** More on the params of the asset-list queries *)
(* ===================================================================== *)

Lemma coalesce_coalesce (v d : JsValue) :
  coalesce (coalesce v d) d = coalesce v d.
Proof.
  unfold coalesce. destruct (nullish v) eqn:Hv.
  - destruct (nullish d); reflexivity.
  - rewrite Hv. reflexivity.
Qed.

Lemma coalesce_truthy (v d : JsValue) : truthy v = true -> coalesce v d = v.
Proof. destruct v; cbn; intros H; try discriminate H; reflexivity. Qed.

Lemma In_pagination_defaults_dec (k : string) :
  (exists d, In (k, d) pagination_defaults)
  \/ ~ In k (map fst pagination_defaults).
Proof.
  unfold pagination_defaults. cbn [map fst In].
  destruct (decide (k = "page")) as [-> | ?]; [ left; eexists; eauto | ].
  destruct (decide (k = "before")) as [-> | ?]; [ left; eexists; eauto | ].
  destruct (decide (k = "after")) as [-> | ?]; [ left; eexists; eauto 6 | ].
  destruct (decide (k = "limit")) as [-> | ?]; [ left; eexists; eauto 7 | ].
  destruct (decide (k = "sortBy")) as [-> | ?]; [ left; eexists; eauto 8 | ].
  right. intros H. repeat destruct H as [H | H]; try congruence.
Qed.

Lemma prop_list_params (input : gmap string JsValue) (k : string) (d : JsValue) :
  In (k, d) pagination_defaults ->
  prop (list_params input) k = coalesce (prop input k) d.
Proof.
  intros Hd. unfold prop at 1. rewrite (list_params_default input k d Hd).
  reflexivity.
Qed.

(** Normalising twice is normalising once. *)
Lemma list_params_idempotent (input : gmap string JsValue) :
  list_params (list_params input) = list_params input.
Proof.
  apply map_eq. intros k.
  destruct (In_pagination_defaults_dec k) as [[d Hd] | Hother].
  - rewrite (list_params_default (list_params input) k d Hd).
    rewrite (list_params_default input k d Hd).
    rewrite (prop_list_params input k d Hd), coalesce_coalesce. reflexivity.
  - apply list_params_other, Hother.
Qed.

(** What goes out always has the five pagination fields, none of them
    [undefined], and a page that is not [null]: a page the caller left out
    or gave as [null] goes out as 1. *)
Theorem list_params_complete (input : gmap string JsValue) :
  (forall k d, In (k, d) pagination_defaults ->
     exists v, list_params input !! k = Some v /\ v <> JUndefined)
  /\ nullish (prop (list_params input) "page") = false
  /\ (nullish (prop input "page") = true ->
      prop (list_params input) "page" = JNum 1).
Proof.
  split; [ | split ].
  - intros k d Hd. rewrite (list_params_default input k d Hd).
    eexists. split; [ reflexivity | ].
    unfold coalesce. destruct (nullish (prop input k)) eqn:Hn.
    + unfold pagination_defaults in Hd. cbn [In] in Hd.
      repeat destruct Hd as [Hd | Hd]; try (injection Hd as <- <-; discriminate).
      destruct Hd.
    + intros E. rewrite E in Hn. discriminate Hn.
  - rewrite (prop_list_params input "page" (JNum 1)) by (cbn; tauto).
    unfold coalesce.
    destruct (nullish (prop input "page")) eqn:Hn; [ reflexivity | exact Hn ].
  - intros Hn.
    rewrite (prop_list_params input "page" (JNum 1)) by (cbn; tauto).
    unfold coalesce. rewrite Hn. reflexivity.
Qed.

Lemma coalesce_falsy (v : JsValue) :
  truthy v = false -> truthy (coalesce v JNull) = false.
Proof. unfold coalesce. destruct (nullish v); [ reflexivity | auto ]. Qed.

(** X6: The params of a query without a cursor are stable under the client:
    when the input has no truthy before and no truthy after, the query is
    sent, and a second query whose input is the params that were sent is
    sent too, with the very same params.  (With a cursor the second query
    is rejected, see X7.) *)
Theorem cursorless_params_resent
  (rpcEndpoint : string)
  (fetch : list HttpRequest -> HttpRequest -> Completion HttpResponse)
  (input : gmap string JsValue) (log log' : list HttpRequest) :
  truthy (prop input "before") = false ->
  truthy (prop input "after") = false ->
  let sent := list_params input in
  snd (getAssetsByOwner rpcEndpoint fetch input log)
    = (log ++ [read_api_request rpcEndpoint "getAssetsByOwner" (JObj sent)])%list
  /\ snd (getAssetsByOwner rpcEndpoint fetch sent log')
    = (log' ++ [read_api_request rpcEndpoint "getAssetsByOwner" (JObj sent)])%list
  /\ snd (getAssetsByGroup rpcEndpoint fetch input log)
    = (log ++ [read_api_request rpcEndpoint "getAssetsByGroup" (JObj sent)])%list
  /\ snd (getAssetsByGroup rpcEndpoint fetch sent log')
    = (log' ++ [read_api_request rpcEndpoint "getAssetsByGroup" (JObj sent)])%list.
Proof.
  intros Hbefore Hafter. cbn zeta.
  assert (Hvalid : validatePagination (prop input "page") (prop input "before")
                     (prop input "after") = Normal tt).
  { apply validatePagination_passes. intros [_ [H | H]]; congruence. }
  assert (Hvalid' : validatePagination (prop (list_params input) "page")
                      (prop (list_params input) "before")
                      (prop (list_params input) "after") = Normal tt).
  { apply validatePagination_passes.
    rewrite (prop_list_params input "before" JNull) by (cbn; tauto).
    rewrite (prop_list_params input "after" JNull) by (cbn; tauto).
    rewrite (coalesce_falsy _ Hbefore), (coalesce_falsy _ Hafter).
    intros [_ [H | H]]; discriminate H. }
  rewrite !getAssetsByOwner_run, !getAssetsByGroup_run, Hvalid, Hvalid',
    list_params_idempotent.
  repeat split.
Qed.

Lemma cursorless_params_resent_witness :
  let input : gmap string JsValue :=
    {[ "ownerAddress" := JStr "X"; "page" := JNum 3 ]} in
  snd (getAssetsByOwner Fixture.rpcEndpoint Fixture.unreachable
         (list_params input) [])
  = [read_api_request Fixture.rpcEndpoint "getAssetsByOwner"
       (JObj (list_params input))].
Proof.
  cbn zeta.
  destruct (cursorless_params_resent
              Fixture.rpcEndpoint Fixture.unreachable
              {[ "ownerAddress" := JStr "X"; "page" := JNum 3 ]} [] [])
    as (_ & Hagain & _).
  - vm_compute. reflexivity.
  - vm_compute. reflexivity.
  - exact Hagain.
Defined.

(** X7: A query by cursor alone passes validation, and its request carries the
    cursor together with page 1: the params that go out are a combination
    the client would reject as an input. *)
Theorem cursor_query_sent_with_page
  (rpcEndpoint : string)
  (fetch : list HttpRequest -> HttpRequest -> Completion HttpResponse)
  (input : gmap string JsValue) (log : list HttpRequest) :
  nullish (prop input "page") = true ->
  truthy (prop input "before") = true \/ truthy (prop input "after") = true ->
  let sent := list_params input in
  snd (getAssetsByOwner rpcEndpoint fetch input log)
    = (log ++ [read_api_request rpcEndpoint "getAssetsByOwner" (JObj sent)])%list
  /\ snd (getAssetsByGroup rpcEndpoint fetch input log)
    = (log ++ [read_api_request rpcEndpoint "getAssetsByGroup" (JObj sent)])%list
  /\ prop sent "page" = JNum 1
  /\ prop sent "before" = coalesce (prop input "before") JNull
  /\ prop sent "after" = coalesce (prop input "after") JNull
  /\ validatePagination (prop sent "page") (prop sent "before") (prop sent "after")
     = Throw (ThrownError pagination_error).
Proof.
  intros Hpage Hcursor. cbn zeta.
  assert (Hvalid : validatePagination (prop input "page") (prop input "before")
                     (prop input "after") = Normal tt).
  { apply validatePagination_passes. intros [Hnum _].
    destruct (prop input "page"); discriminate. }
  rewrite getAssetsByOwner_run, getAssetsByGroup_run, Hvalid. cbn [snd].
  assert (Hp : prop (list_params input) "page" = JNum 1).
  { apply list_params_complete, Hpage. }
  assert (Hb : prop (list_params input) "before"
               = coalesce (prop input "before") JNull).
  { apply prop_list_params. cbn. tauto. }
  assert (Ha : prop (list_params input) "after"
               = coalesce (prop input "after") JNull).
  { apply prop_list_params. cbn. tauto. }
  repeat (split; [ first [ reflexivity | assumption ] | ]).
  rewrite Hp, Hb, Ha. apply validatePagination_throws; [ reflexivity | ].
  destruct Hcursor as [H | H]; [ left | right ];
    rewrite (coalesce_truthy _ _ H); exact H.
Qed.

Lemma cursor_query_sent_with_page_witness :
  let input : gmap string JsValue :=
    {[ "ownerAddress" := JStr "X"; "after" := JStr "Addr1" ]} in
  prop (list_params input) "page" = JNum 1
  /\ prop (list_params input) "after" = JStr "Addr1"
  /\ snd (getAssetsByOwner Fixture.rpcEndpoint Fixture.unreachable input [])
     = [read_api_request Fixture.rpcEndpoint "getAssetsByOwner"
          (JObj (list_params input))].
Proof.
  cbn zeta.
  destruct (cursor_query_sent_with_page
              Fixture.rpcEndpoint Fixture.unreachable
              {[ "ownerAddress" := JStr "X"; "after" := JStr "Addr1" ]} [])
    as (Howner & _ & Hpage & _ & Hafter & _).
  - vm_compute. reflexivity.
  - right. vm_compute. reflexivity.
  - split; [ exact Hpage | ]. split; [ | exact Howner ].
    rewrite Hafter. vm_compute. reflexivity.
Defined.

(* ===================================================================== *)
(** ** More on the transformers *)
(* ===================================================================== *)

(** The seed of a leaf index: [new BN(leaf_id).toArray("le", 8)]. *)
Lemma leaf_seed_run (leaf_id : Z) :
  cbind (new_BN leaf_id) (fun leaf => BN_toArray_le leaf 8)
  = if Z.abs leaf_id <? 2 ^ 53
    then Normal (le_bytes 8 (Z.abs_N leaf_id))
    else Throw (ThrownError (Error "Assertion failed")).
Proof.
  unfold new_BN. destruct (Z.abs leaf_id <? 2 ^ 53) eqn:Hleaf; [ | reflexivity ].
  cbn [cbind]. unfold BN_toArray_le. cbn [magnitude].
  apply Z.ltb_lt in Hleaf.
  assert (Hfit : (Z.abs_N leaf_id <? 256 ^ N.of_nat 8)%N = true).
  { apply N.ltb_lt, N2Z.inj_lt. rewrite N2Z.inj_abs_N.
    change (Z.of_N (256 ^ N.of_nat 8)) with (2 ^ 64). lia. }
  rewrite Hfit. reflexivity.
Qed.

(** X8: The leaf seed is eight bytes that read back, least significant byte
    first, as the magnitude of the leaf index: two safe indices have the
    same seed exactly when they have the same magnitude, so the sign is
    lost and nothing else; an index of magnitude 2^53 or more has no
    seed. *)
Theorem leaf_seed_round_trip (a b : Z) :
  let seed (leaf_id : Z) :=
    cbind (new_BN leaf_id) (fun leaf => BN_toArray_le leaf 8) in
  (Z.abs a < 2 ^ 53 ->
   exists bytes, seed a = Normal bytes /\ length bytes = 8%nat
                 /\ Z.of_N (le_value bytes) = Z.abs a)
  /\ (Z.abs a < 2 ^ 53 -> Z.abs b < 2 ^ 53 ->
      (seed a = seed b <-> Z.abs a = Z.abs b))
  /\ (2 ^ 53 <= Z.abs a -> exists t, seed a = Throw t).
Proof.
  cbv zeta beta. rewrite !leaf_seed_run. split; [ | split ].
  - intros Ha. rewrite (proj2 (Z.ltb_lt _ _) Ha).
    eexists. split; [ reflexivity | ].
    split; [ apply length_le_bytes | apply leaf_bytes_value, Ha ].
  - intros Ha Hb.
    rewrite (proj2 (Z.ltb_lt _ _) Ha), (proj2 (Z.ltb_lt _ _) Hb). split.
    + intros Heq.
      apply (f_equal (fun c => match c with
                               | Normal bytes => Z.of_N (le_value bytes)
                               | Throw _ => 0
                               end)) in Heq.
      cbv beta iota in Heq.
      rewrite (leaf_bytes_value a Ha), (leaf_bytes_value b Hb) in Heq.
      exact Heq.
    + intros Heq. rewrite !Zabs2N.abs_N_spec, Heq. reflexivity.
  - intros Ha. rewrite (proj2 (Z.ltb_ge _ _) Ha). eauto.
Qed.

Lemma leaf_seed_round_trip_witness :
  cbind (new_BN 70000) (fun leaf => BN_toArray_le leaf 8)
  = cbind (new_BN (-70000)) (fun leaf => BN_toArray_le leaf 8).
Proof.
  apply (leaf_seed_round_trip 70000 (-70000)); [ cbn; lia | cbn; lia | reflexivity ].
Defined.

Section MoreTransformerFacts.

Context {PublicKey Pda PdaData : Type}.
Variable new_PublicKey : string -> Completion PublicKey.
Variable toBuffer : PublicKey -> list byte.
Variable BUBBLEGUM_PROGRAM_ID : PublicKey.
Variable Pda_find : PublicKey -> list (list byte) -> Completion Pda.
Variable data : Pda -> PdaData.

Local Abbreviation toMetadata' :=
  (toMetadataFromReadApiAsset new_PublicKey toBuffer BUBBLEGUM_PROGRAM_ID
     Pda_find data).

(** X9: The three views of one asset agree where they exist.  Whenever the
    metadata view is returned, the mint view is returned as well, with the
    mint address of the metadata as its address.  The edition view is
    returned too when both print supplies are safe integers, with the same
    address, as an original, and with the supplies of the asset as big
    numbers; when a print supply has a magnitude of 2^53 or more,
    [toBigNumber] refuses it and the edition view throws although the
    metadata view exists. *)
Theorem views_share_mint_address (input : ReadApi.Asset)
  (m : Metadata.t PublicKey PdaData) :
  toMetadata' input = Normal m ->
  let current := ReadApi.print_current_supply (ReadApi.supply input) in
  let max := ReadApi.print_max_supply (ReadApi.supply input) in
  (exists mint,
     toMintFromReadApiAsset new_PublicKey input = Normal mint
     /\ Mint.address mint = Metadata.mintAddress m)
  /\ (Z.abs current < 2 ^ 53 -> Z.abs max < 2 ^ 53 ->
      exists edition,
        toNftEditionFromReadApiAsset new_PublicKey input = Normal edition
        /\ NftEdition.address edition = Metadata.mintAddress m
        /\ NftEdition.isOriginal edition = true
        /\ NftEdition.supply edition
           = {| negative := current <? 0; magnitude := Z.abs_N current |}
        /\ NftEdition.maxSupply edition
           = {| negative := max <? 0; magnitude := Z.abs_N max |})
  /\ (2 ^ 53 <= Z.abs current \/ 2 ^ 53 <= Z.abs max ->
      toNftEditionFromReadApiAsset new_PublicKey input
      = Throw (ThrownError (Error "Assertion failed"))).
Proof.
  intros Hm. cbn zeta.
  destruct (toMetadata_Normal _ _ _ _ _ input m Hm)
    as (a & t & p & _ & _ & _ & _ & _ & Hid & _).
  unfold toMintFromReadApiAsset, toNftEditionFromReadApiAsset, toBigNumber, new_BN.
  rewrite Hid. cbn [cbind]. split; [ | split ].
  - eexists. split; reflexivity.
  - intros Hcurrent Hmax.
    rewrite (proj2 (Z.ltb_lt _ _) Hcurrent), (proj2 (Z.ltb_lt _ _) Hmax).
    cbn [cbind]. eexists. split; [ reflexivity | ]. cbn. repeat split.
  - intros Hbig.
    destruct (Z.abs (ReadApi.print_current_supply (ReadApi.supply input)) <? 2 ^ 53)
      eqn:Hcurrent; [ | reflexivity ].
    cbn [cbind]. apply Z.ltb_lt in Hcurrent.
    destruct Hbig as [Hbig | Hbig]; [ lia | ].
    rewrite (proj2 (Z.ltb_ge _ _) Hbig). reflexivity.
Qed.

(** X10: When exactly the metadata view is returned: there is a full-scope
    authority, and the SDK accepts the tree address, the asset id, the
    address of the first full-scope authority and the value of the first
    "collection" grouping (if there is one), the leaf index is a safe
    integer and the program-derived address exists.  The addresses of the
    other authorities and the other groupings are never looked at. *)
Theorem metadata_returned_iff (input : ReadApi.Asset) :
  (exists m, toMetadata' input = Normal m)
  <-> exists authority tree pda,
        update_authority input = Some authority
        /\ new_PublicKey (ReadApi.tree (ReadApi.compression input)) = Normal tree
        /\ Z.abs (ReadApi.leaf_id (ReadApi.compression input)) < 2 ^ 53
        /\ Pda_find BUBBLEGUM_PROGRAM_ID
             [Buffer_from_utf8 "asset"; toBuffer tree;
              le_bytes 8 (Z.abs_N (ReadApi.leaf_id (ReadApi.compression input)))]
           = Normal pda
        /\ (exists k, new_PublicKey (ReadApi.id input) = Normal k)
        /\ (exists k, new_PublicKey (ReadApi.address authority) = Normal k)
        /\ (forall g,
              List.find is_collection (ReadApi.grouping input) = Some g ->
              exists k, new_PublicKey (ReadApi.group_value g) = Normal k).
Proof.
  split.
  - intros [m Hm].
    destruct (toMetadata_Normal _ _ _ _ _ input m Hm)
      as (a & t & p & Hua & Htree & Hleaf & Hpda & _ & Hid & Hauth & Hcoll & _).
    exists a, t, p. repeat (split; [ eauto; fail | ]).
    intros g Hg. rewrite Hg in Hcoll. destruct Hcoll as (k & Hk & _). eauto.
  - intros (a & t & p & Hua & Htree & Hleaf & Hpda & [kid Hid] & [ka Hauth] & Hcoll).
    unfold toMetadataFromReadApiAsset. fold (update_authority input).
    rewrite Hua, Htree. cbn [cbind].
    pose proof (leaf_seed_run (ReadApi.leaf_id (ReadApi.compression input))) as Hseed.
    rewrite (proj2 (Z.ltb_lt _ _) Hleaf) in Hseed.
    destruct (new_BN _) as [leaf | ]; [ | discriminate Hseed ].
    cbn [cbind] in Hseed |- *. rewrite Hseed. cbn [cbind].
    rewrite Hpda. cbn [cbind]. rewrite Hid. cbn [cbind].
    rewrite Hauth. cbn [cbind].
    destruct (List.find is_collection (ReadApi.grouping input)) as [g | ].
    + destruct (Hcoll g eq_refl) as [k ->]. cbn [cbind]. eauto.
    + cbn [cbind]. eauto.
Qed.

(** X11: What a returned metadata object copies from the asset: the royalty, the
    creators, the mutable flag, the URI, the JSON metadata, the edition
    nonce and the compression block are the asset's own; name and symbol
    are those of the JSON metadata, and the empty string where the metadata
    or the field is absent; the token standard is NonFungible and the
    collection details, uses and programmable config are null. *)
Theorem metadata_copies_asset (input : ReadApi.Asset)
  (m : Metadata.t PublicKey PdaData) :
  toMetadata' input = Normal m ->
  Metadata.sellerFeeBasisPoints m = ReadApi.basis_points (ReadApi.royalty input)
  /\ Metadata.primarySaleHappened m
     = ReadApi.primary_sale_happened (ReadApi.royalty input)
  /\ Metadata.creators m = ReadApi.creators input
  /\ Metadata.isMutable m = ReadApi.mutable input
  /\ Metadata.uri m = ReadApi.json_uri (ReadApi.content input)
  /\ Metadata.json m = ReadApi.metadata (ReadApi.content input)
  /\ Metadata.editionNonce m = ReadApi.edition_nonce (ReadApi.supply input)
  /\ Metadata.compression m = ReadApi.compression input
  /\ Metadata.name m
     = match ReadApi.metadata (ReadApi.content input) with
       | Some json => match ReadApi.name json with Some s => s | None => "" end
       | None => ""
       end
  /\ Metadata.symbol m
     = match ReadApi.metadata (ReadApi.content input) with
       | Some json => match ReadApi.symbol json with Some s => s | None => "" end
       | None => ""
       end
  /\ Metadata.tokenStandard m = NonFungible
  /\ Metadata.jsonLoaded m = true
  /\ Metadata.collectionDetails m = None
  /\ Metadata.uses m = None
  /\ Metadata.programmableConfig m = None.
Proof.
  unfold toMetadataFromReadApiAsset.
  destruct (match ReadApi.authorities input with
            | Some authorities => List.find has_full_scope authorities
            | None => None
            end) as [authority | ]; [ | discriminate ].
  destruct (new_PublicKey (ReadApi.tree _)); [ | discriminate ]. cbn [cbind].
  destruct (new_BN _); [ | discriminate ]. cbn [cbind].
  destruct (BN_toArray_le _ _); [ | discriminate ]. cbn [cbind].
  destruct (Pda_find _ _); [ | discriminate ]. cbn [cbind].
  destruct (new_PublicKey (ReadApi.id input)); [ | discriminate ]. cbn [cbind].
  destruct (new_PublicKey (ReadApi.address authority)); [ | discriminate ].
  cbn [cbind].
  destruct (match List.find is_collection (ReadApi.grouping input) with
            | Some collection => _
            | None => _
            end); [ | discriminate ].
  cbn [cbind]. intros [= <-]. cbn.
  destruct (ReadApi.metadata (ReadApi.content input)) as [json | ]; cbn.
  - destruct (ReadApi.name json), (ReadApi.symbol json); cbn; repeat split.
  - repeat split.
Qed.

End MoreTransformerFacts.

Lemma views_share_mint_address_witness :
  exists mint edition,
    toMintFromReadApiAsset Fixture.new_PublicKey
      (Fixture.asset Fixture.in_collection) = Normal mint
    /\ toNftEditionFromReadApiAsset Fixture.new_PublicKey
         (Fixture.asset Fixture.in_collection) = Normal edition
    /\ Mint.address mint = "Addr1"
    /\ NftEdition.address edition = "Addr1".
Proof.
  destruct (fixture_metadata) as (m & Hm & _).
  destruct (views_share_mint_address
              Fixture.new_PublicKey Fixture.toBuffer
              Fixture.BUBBLEGUM_PROGRAM_ID Fixture.Pda_find Fixture.data
              (Fixture.asset Fixture.in_collection) m Hm)
    as ((mint & Hmint & Ha) & Hedition & _).
  destruct Hedition as (edition & Hedition & He & _); [ cbn; lia | cbn; lia | ].
  exists mint, edition. repeat split; try assumption.
  - rewrite Ha. vm_compute in Hm. injection Hm as <-. reflexivity.
  - rewrite He. vm_compute in Hm. injection Hm as <-. reflexivity.
Defined.

(** An asset whose print supply is not a safe integer has a metadata view
    and a mint view, and no edition view. *)
Lemma edition_of_unsafe_supply_throws :
  let input :=
    {| ReadApi.id := "Addr1";
       ReadApi.authorities :=
         Some [ {| ReadApi.address := "Auth1"; ReadApi.scopes := ["full"] |} ];
       ReadApi.grouping := [];
       ReadApi.compression := {| ReadApi.tree := "Tree1"; ReadApi.leaf_id := 0 |};
       ReadApi.supply :=
         {| ReadApi.print_current_supply := 0;
            ReadApi.print_max_supply := 2 ^ 53;
            ReadApi.edition_nonce := None |};
       ReadApi.royalty :=
         {| ReadApi.basis_points := 0; ReadApi.primary_sale_happened := false |};
       ReadApi.content := {| ReadApi.metadata := None; ReadApi.json_uri := "" |};
       ReadApi.creators := [];
       ReadApi.mutable := false |} in
  (exists m,
     toMetadataFromReadApiAsset Fixture.new_PublicKey Fixture.toBuffer
       Fixture.BUBBLEGUM_PROGRAM_ID Fixture.Pda_find Fixture.data input
     = Normal m)
  /\ toNftEditionFromReadApiAsset Fixture.new_PublicKey input
     = Throw (ThrownError (Error "Assertion failed")).
Proof. cbn zeta. split; [ eexists; vm_compute; reflexivity | reflexivity ]. Qed.

Lemma metadata_copies_asset_witness :
  exists m,
    toMetadataFromReadApiAsset Fixture.new_PublicKey Fixture.toBuffer
      Fixture.BUBBLEGUM_PROGRAM_ID Fixture.Pda_find Fixture.data
      (Fixture.asset []) = Normal m
    /\ Metadata.sellerFeeBasisPoints m = 500
    /\ Metadata.name m = "NFT Name"
    /\ Metadata.symbol m = "".
Proof.
  eexists. split; [ vm_compute; reflexivity | ].
  match goal with
  | |- context [ Metadata.sellerFeeBasisPoints ?m ] =>
      pose proof (metadata_copies_asset
                    Fixture.new_PublicKey Fixture.toBuffer
                    Fixture.BUBBLEGUM_PROGRAM_ID Fixture.Pda_find Fixture.data
                    (Fixture.asset []) m) as Hcopy
  end.
  destruct Hcopy as (Hfee & _ & _ & _ & _ & _ & _ & _ & Hname & Hsymbol & _).
  - vm_compute. reflexivity.
  - rewrite Hfee, Hname, Hsymbol. repeat split.
Defined.

(* ===================================================================== *)
(** ** The key files *)
(* ===================================================================== *)

Lemma lookup_assign {A : Type} (key : string) (value : A)
  (record : gmap string A) (k : string) :
  assign key value record !! k
  = if decide (k = key /\ key <> "__proto__") then Some value else record !! k.
Proof.
  unfold assign. destruct (String.eqb_spec key "__proto__") as [-> | Hne].
  - destruct (decide _) as [[_ H] | _]; [ destruct (H eq_refl) | reflexivity ].
  - destruct (decide _) as [[-> _] | Hk].
    + apply lookup_insert_eq.
    + apply lookup_insert_ne. intros <-. apply Hk. split; [ reflexivity | exact Hne ].
Qed.

Section KeyFileFacts.

Context {FS Text PublicKey Keypair : Type}.
Variable existsSync : FS -> string -> bool.
Variable readFileSync : FS -> string -> Completion Text.
Variable writeFileSync : FS -> string -> Text -> Completion unit * FS.
Variable mkdirSync : FS -> string -> Completion unit * FS.
Variable path_join : string -> string -> string.
Variable path_dirname : string -> string.
Variable JSON_parse : Text -> Completion JsValue.
Variable JSON_stringify : JsValue -> option Z -> Text.
Variable new_PublicKey : JsValue -> Completion PublicKey.
Variable toBase58 : PublicKey -> string.
Variable new_Uint8Array : JsValue -> Completion (list byte).
Variable Keypair_fromSecretKey : list byte -> Completion Keypair.
Variable secretKey : Keypair -> list byte.
Variable Keypair_generate : nat -> Keypair.

Local Abbreviation load :=
  (loadPublicKeysFromFile existsSync readFileSync path_join JSON_parse
     new_PublicKey).
Local Abbreviation save :=
  (savePublicKeyToFile existsSync readFileSync writeFileSync mkdirSync
     path_join path_dirname JSON_parse JSON_stringify new_PublicKey toBase58).
Local Abbreviation loadKeypair :=
  (loadKeypairFromFile existsSync readFileSync JSON_parse new_Uint8Array
     Keypair_fromSecretKey).
Local Abbreviation saveKeypair :=
  (saveKeypairToFile (Keypair := Keypair) existsSync writeFileSync mkdirSync
     path_join JSON_stringify secretKey).
Local Abbreviation loadOrGenerate :=
  (loadOrGenerateKeypair existsSync readFileSync writeFileSync mkdirSync
     path_join JSON_parse JSON_stringify new_Uint8Array Keypair_fromSecretKey
     secretKey Keypair_generate).
Local Abbreviation parse := (parse_entries new_PublicKey).
Local Abbreviation read_keys' := (read_keys readFileSync JSON_parse new_PublicKey).

(** *** The loop over the entries *)

Lemma parse_entries_Throw (l : list (string * JsValue))
  (acc : gmap string PublicKey) :
  (exists k v t, In (k, v) l /\ new_PublicKey v = Throw t) ->
  exists t, parse l acc = Throw t.
Proof.
  revert acc. induction l as [ | [k0 v0] l IH]; intros acc (k & v & t & Hin & Ht).
  - destruct Hin.
  - cbn. destruct (new_PublicKey v0) as [key0 | t0] eqn:H0; cbn; [ | eauto ].
    destruct Hin as [[= -> ->] | Hin]; [ congruence | ].
    apply IH. eauto.
Qed.

Lemma parse_entries_Normal (l : list (string * JsValue))
  (acc : gmap string PublicKey) :
  (forall k v, In (k, v) l -> exists key, new_PublicKey v = Normal key) ->
  exists m, parse l acc = Normal m.
Proof.
  revert acc. induction l as [ | [k0 v0] l IH]; intros acc Hall; cbn.
  - eauto.
  - destruct (Hall k0 v0 (or_introl eq_refl)) as [key0 ->]. cbn.
    apply IH. intros k v Hin. apply (Hall k v). right. exact Hin.
Qed.

Lemma parse_entries_all (l : list (string * JsValue))
  (acc m : gmap string PublicKey) :
  parse l acc = Normal m ->
  forall k v, In (k, v) l -> exists key, new_PublicKey v = Normal key.
Proof.
  revert acc. induction l as [ | [k0 v0] l IH]; intros acc Hm k v Hin.
  - destruct Hin.
  - cbn in Hm. destruct (new_PublicKey v0) as [key0 | ] eqn:H0; [ | discriminate ].
    cbn in Hm. destruct Hin as [[= <- <-] | Hin]; [ eauto | ].
    apply (IH _ Hm k v Hin).
Qed.

Lemma parse_entries_lookup (l : list (string * JsValue))
  (acc m : gmap string PublicKey) :
  NoDup (map fst l) ->
  parse l acc = Normal m ->
  forall k key,
    m !! k = Some key
    <-> (k <> "__proto__"
         /\ exists v, In (k, v) l /\ new_PublicKey v = Normal key)
        \/ ((k = "__proto__" \/ ~ In k (map fst l)) /\ acc !! k = Some key).
Proof.
  clear existsSync readFileSync writeFileSync mkdirSync path_join path_dirname
    JSON_parse JSON_stringify toBase58 new_Uint8Array Keypair_fromSecretKey
    secretKey Keypair_generate.
  revert acc. induction l as [ | [k0 v0] l IH]; intros acc Hnd Hm k key.
  - cbn in Hm. injection Hm as <-. cbn. split.
    + intros H. right. split; [ right; tauto | exact H ].
    + intros [(_ & v & [] & _) | [_ H]]. exact H.
  - cbn in Hm. destruct (new_PublicKey v0) as [key0 | ] eqn:H0; [ | discriminate ].
    cbn in Hm. cbn [map fst] in Hnd. apply NoDup_cons in Hnd as [Hk0 Hnd].
    rewrite (IH _ Hnd Hm k key), lookup_assign. cbn [In map fst].
    assert (Hin_fst : forall v, In (k, v) l -> In k (map fst l)).
    { intros v Hv. apply (in_map fst) in Hv. exact Hv. }
    destruct (decide (k = k0 /\ k0 <> "__proto__")) as [[-> Hproto] | Hnot].
    + rewrite list_elem_of_In in Hk0. split.
      * intros [(_ & v & Hv & _) | [_ [= <-]]];
          [ destruct (Hk0 (Hin_fst v Hv)) | ].
        left. split; [ exact Hproto | ]. exists v0. split; [ left; reflexivity | exact H0 ].
      * intros [(_ & v & [[= <-] | Hv] & Hkey) | [[Hp | Hn] _]].
        -- right. split; [ right; exact Hk0 | congruence ].
        -- destruct (Hk0 (Hin_fst v Hv)).
        -- destruct (Hproto Hp).
        -- destruct Hn. left. reflexivity.
    + rewrite list_elem_of_In in Hk0. split.
      * intros [(Hp & v & Hv & Hkey) | [[Hp | Hn] Hacc]].
        -- left. split; [ exact Hp | ]. exists v. split; [ right; exact Hv | exact Hkey ].
        -- right. split; [ left; exact Hp | exact Hacc ].
        -- destruct (decide (k = k0)) as [-> | Hne].
           ++ right. split; [ | exact Hacc ]. left.
              destruct (decide (k0 = "__proto__")) as [E | E]; [ exact E | ].
              destruct Hnot. split; [ reflexivity | exact E ].
           ++ right. split; [ | exact Hacc ]. right. intros [E | E]; [ congruence | tauto ].
      * intros [(Hp & v & [[= -> ->] | Hv] & Hkey) | [[Hp | Hn] Hacc]].
        -- destruct Hnot. split; [ reflexivity | exact Hp ].
        -- left. split; [ exact Hp | ]. exists v. split; [ exact Hv | exact Hkey ].
        -- right. split; [ left; exact Hp | exact Hacc ].
        -- right. split; [ right; tauto | exact Hacc ].
Qed.

Lemma parse_entries_proto (l : list (string * JsValue))
  (acc m : gmap string PublicKey) :
  parse l acc = Normal m -> m !! "__proto__" = acc !! "__proto__".
Proof.
  revert acc. induction l as [ | [k0 v0] l IH]; intros acc Hm; cbn in Hm.
  - injection Hm as <-. reflexivity.
  - destruct (new_PublicKey v0) as [key0 | ]; [ | discriminate ]. cbn in Hm.
    rewrite (IH _ Hm), lookup_assign.
    destruct (decide _) as [[<- H] | _]; [ destruct (H eq_refl) | reflexivity ].
Qed.

(** *** loadPublicKeysFromFile *)

Lemma loadPublicKeysFromFile_run (absPath : option string) (w : KeyWorld FS) :
  let path :=
    default (path_join DEFAULT_KEY_DIR_NAME DEFAULT_PUBLIC_KEY_FILE) absPath in
  load absPath w
  = if existsSync (disk w) path
    then match read_keys' w path with
         | Normal keys => (Normal keys, w)
         | Throw _ => (Normal ∅, warned w "Failed to load public keys:")
         end
    else (Normal ∅, w).
Proof.
  cbn zeta. unfold loadPublicKeysFromFile, etry, ebind, fs_existsSync,
    fs_readFileSync, elift, eret, console_warn, read_keys, cbind, warned.
  destruct (existsSync (disk w) _); cbn [negb]; [ | reflexivity ].
  destruct (readFileSync (disk w) _) as [raw | ]; [ | reflexivity ].
  destruct (JSON_parse raw) as [data | ]; [ | reflexivity ].
  destruct (Object_entries data) as [entries | ]; [ | reflexivity ].
  destruct (parse_entries new_PublicKey entries ∅); reflexivity.
Qed.

Lemma fmap_fst_map {A B : Type} (l : list (A * B)) : l.*1 = map fst l.
Proof. induction l as [ | x l IH]; cbn; [ | rewrite IH ]; reflexivity. Qed.

(** X12: [loadPublicKeysFromFile] never throws and never writes: it returns a
    record and leaves the disk as it was.  A missing file gives the empty
    record and no message; anything that goes wrong once the file is there
    (it cannot be read, it is not JSON, a value is not a key) gives the
    empty record and one warning. *)
Theorem loadPublicKeys_never_throws (absPath : option string) (w : KeyWorld FS) :
  let path :=
    default (path_join DEFAULT_KEY_DIR_NAME DEFAULT_PUBLIC_KEY_FILE) absPath in
  exists keys w',
    load absPath w = (Normal keys, w')
    /\ disk w' = disk w
    /\ generated w' = generated w
    /\ (existsSync (disk w) path = false -> keys = ∅ /\ w' = w)
    /\ ((exists t, read_keys' w path = Throw t) ->
        existsSync (disk w) path = true ->
        keys = ∅
        /\ console w' = (console w ++ [ConsoleWarn "Failed to load public keys:"])%list)
    /\ (forall found, read_keys' w path = Normal found ->
        existsSync (disk w) path = true -> keys = found /\ w' = w).
Proof.
  cbn zeta. rewrite loadPublicKeysFromFile_run.
  destruct (existsSync (disk w) _).
  - destruct (read_keys' w _) as [found | t].
    + exists found, w. do 3 (split; [ reflexivity | ]).
      split; [ discriminate | ].
      split; [ intros [t Ht]; discriminate Ht | ].
      intros f [= <-] _. split; reflexivity.
    + eexists ∅, _. do 3 (split; [ reflexivity | ]).
      split; [ discriminate | ].
      split; [ intros _ _; split; reflexivity | ].
      intros f Hf. discriminate Hf.
  - exists ∅, w. do 3 (split; [ reflexivity | ]).
    split; [ intros _; split; reflexivity | ].
    split; [ intros _ H; discriminate H | intros f _ H; discriminate H ].
Qed.

(** X13: Loading is all or nothing.  For a file that holds a JSON object: if
    every value is accepted by the [PublicKey] constructor, the record has
    exactly the names of the object (but "__proto__", which an assignment
    does not store), each with its key; if a single value is refused,
    the record is empty, the good entries with it. *)
Theorem loadPublicKeys_all_or_nothing (absPath : option string)
  (w : KeyWorld FS) (raw : Text) (o : gmap string JsValue) :
  let path :=
    default (path_join DEFAULT_KEY_DIR_NAME DEFAULT_PUBLIC_KEY_FILE) absPath in
  existsSync (disk w) path = true ->
  readFileSync (disk w) path = Normal raw ->
  JSON_parse raw = Normal (JObj o) ->
  ((forall k v, o !! k = Some v -> exists key, new_PublicKey v = Normal key) ->
   exists keys,
     load absPath w = (Normal keys, w)
     /\ forall k key,
          keys !! k = Some key
          <-> k <> "__proto__"
              /\ exists v, o !! k = Some v /\ new_PublicKey v = Normal key)
  /\ ((exists k v t, o !! k = Some v /\ new_PublicKey v = Throw t) ->
      load absPath w = (Normal ∅, warned w "Failed to load public keys:")).
Proof.
  cbn zeta. intros Hexists Hread Hparse.
  rewrite loadPublicKeysFromFile_run, Hexists.
  unfold read_keys. rewrite Hread. cbn [cbind]. rewrite Hparse. cbn [cbind Object_entries].
  split.
  - intros Hall.
    destruct (parse_entries_Normal (map_to_list o) ∅) as [keys Hkeys].
    { intros k v Hin. apply (Hall k v).
      apply elem_of_map_to_list, list_elem_of_In, Hin. }
    rewrite Hkeys. exists keys. split; [ reflexivity | ].
    intros k key.
    rewrite (parse_entries_lookup (map_to_list o) ∅ keys); [ | | exact Hkeys ].
    + rewrite lookup_empty. split.
      * intros [(Hp & v & Hin & Hkey) | [_ H]]; [ | discriminate H ].
        split; [ exact Hp | ]. exists v. split; [ | exact Hkey ].
        apply elem_of_map_to_list, list_elem_of_In, Hin.
      * intros (Hp & v & Hv & Hkey). left. split; [ exact Hp | ].
        exists v. split; [ | exact Hkey ].
        apply list_elem_of_In, elem_of_map_to_list, Hv.
    + rewrite <- fmap_fst_map. apply NoDup_fst_map_to_list.
  - intros (k & v & t & Hv & Ht).
    destruct (parse_entries_Throw (map_to_list o) ∅) as [t' ->]; [ | reflexivity ].
    exists k, v, t. split; [ | exact Ht ].
    apply list_elem_of_In, elem_of_map_to_list, Hv.
Qed.

(** *** savePublicKeyToFile *)

Lemma ensureDirExists_run (dir : string) (w : KeyWorld FS) :
  ensureDirExists existsSync mkdirSync dir w
  = if existsSync (disk w) dir then (Normal tt, w)
    else (fst (mkdirSync (disk w) dir), on_disk w (snd (mkdirSync (disk w) dir))).
Proof.
  unfold ensureDirExists, ebind, fs_existsSync, fs_mkdirSync, eret, on_disk.
  destruct (existsSync (disk w) dir); cbn [negb]; [ reflexivity | ].
  destruct (mkdirSync (disk w) dir). reflexivity.
Qed.

(** The text [savePublicKeyToFile] writes for a record. *)
Lemma savePublicKeyToFile_run (name : string) (publicKey : PublicKey)
  (absPath : option string) (w : KeyWorld FS) :
  let path :=
    default (path_join DEFAULT_KEY_DIR_NAME DEFAULT_PUBLIC_KEY_FILE) absPath in
  save name publicKey absPath w
  = match ensureDirExists existsSync mkdirSync (path_dirname path) w with
    | (Throw _, w1) => (Normal ∅, warned w1 "Failed to save public key:")
    | (Normal _, w1) =>
        match load (Some path) w1 with
        | (Throw _, w2) => (Normal ∅, warned w2 "Failed to save public key:")
        | (Normal loaded, w2) =>
            let data := assign name publicKey loaded in
            let text :=
              JSON_stringify
                (JObj ((fun v => JStr (toBase58 v)) <$> data)) (Some 2) in
            match writeFileSync (disk w2) path text with
            | (Normal _, disk') => (Normal data, on_disk w2 disk')
            | (Throw _, disk') =>
                (Normal ∅, warned (on_disk w2 disk') "Failed to save public key:")
            end
        end
    end.
Proof.
  cbn zeta. unfold savePublicKeyToFile, etry. unfold ebind at 1.
  destruct (ensureDirExists _ _ _ w) as [[[] | t] w1]; [ | reflexivity ].
  unfold ebind at 1.
  destruct (loadPublicKeysFromFile _ _ _ _ _ _ w1) as [[loaded | t] w2];
    [ | reflexivity ].
  unfold ebind, fs_writeFileSync, eret, on_disk, console_warn, warned.
  destruct (writeFileSync (disk w2) _ _) as [[[] | t] disk']; reflexivity.
Qed.

(** X14: [savePublicKeyToFile] never throws.  What it returns is either the
    empty record, after a failure, or the record it loaded from the file
    with the new key assigned; and it returns a record that holds the new
    key only when the file was written. *)
Theorem savePublicKey_never_throws (name : string) (publicKey : PublicKey)
  (absPath : option string) (w : KeyWorld FS) :
  let path :=
    default (path_join DEFAULT_KEY_DIR_NAME DEFAULT_PUBLIC_KEY_FILE) absPath in
  exists data w',
    save name publicKey absPath w = (Normal data, w')
    /\ generated w' = generated w
    /\ (data = ∅
        \/ exists w1 loaded w2 text,
             load (Some path) w1 = (Normal loaded, w2)
             /\ data = assign name publicKey loaded
             /\ text = JSON_stringify
                         (JObj ((fun v => JStr (toBase58 v)) <$> data)) (Some 2)
             /\ writeFileSync (disk w2) path text = (Normal tt, disk w')).
Proof.
  cbn zeta. rewrite savePublicKeyToFile_run, ensureDirExists_run. cbn zeta.
  set (path := default _ absPath).
  assert (Hw1 : exists c1 w1,
            (if existsSync (disk w) (path_dirname path) then (Normal tt, w)
             else (fst (mkdirSync (disk w) (path_dirname path)),
                   on_disk w (snd (mkdirSync (disk w) (path_dirname path)))))
            = (c1, w1) /\ generated w1 = generated w).
  { destruct (existsSync _ _); eexists _, _; split; reflexivity. }
  destruct Hw1 as (c1 & w1 & -> & Hg1).
  destruct c1 as [[] | t]; [ | eexists _, _; split; [ reflexivity | auto ] ].
  destruct (loadPublicKeys_never_throws (Some path) w1)
    as (loaded & w2 & Hload & _ & Hg2 & _).
  rewrite Hload.
  destruct (writeFileSync (disk w2) path _) as [[[] | t] disk'] eqn:Hwrite.
  - eexists _, _. split; [ reflexivity | ]. split; [ cbn; congruence | ].
    right. exists w1, loaded, w2. eexists. repeat split; [ exact Hload | exact Hwrite ].
  - eexists _, _. split; [ reflexivity | ]. split; [ cbn; congruence | auto ].
Qed.

Lemma loadPublicKeys_no_proto (absPath : option string) (w w' : KeyWorld FS)
  (keys : gmap string PublicKey) :
  load absPath w = (Normal keys, w') -> keys !! "__proto__" = None.
Proof.
  rewrite loadPublicKeysFromFile_run.
  destruct (existsSync _ _); [ | intros [= <- _]; apply lookup_empty ].
  unfold read_keys, cbind.
  destruct (readFileSync _ _) as [raw | ]; [ | intros [= <- _]; apply lookup_empty ].
  destruct (JSON_parse raw) as [parsed | ]; [ | intros [= <- _]; apply lookup_empty ].
  destruct (Object_entries parsed) as [entries | ];
    [ | intros [= <- _]; apply lookup_empty ].
  destruct (parse entries ∅) as [found | ] eqn:Hfound;
    [ | intros [= <- _]; apply lookup_empty ].
  intros [= <- _]. rewrite (parse_entries_proto _ _ _ Hfound). apply lookup_empty.
Qed.

(** *** Keypair files *)

Lemma loadKeypairFromFile_run (absPath : string) (w : KeyWorld FS) :
  loadKeypair absPath w
  = (if existsSync (disk w) absPath
     then (let! text := readFileSync (disk w) absPath in
           let! raw := JSON_parse text in
           let! bytes := new_Uint8Array raw in
           Keypair_fromSecretKey bytes)
     else Throw (ThrownError (Error "Keypair file does not exist")),
     w).
Proof.
  unfold loadKeypairFromFile, ebind, fs_existsSync, fs_readFileSync, elift,
    ethrow, cbind.
  destruct (existsSync (disk w) absPath); cbn [negb]; [ | reflexivity ].
  destruct (readFileSync (disk w) absPath) as [text | ]; [ | reflexivity ].
  destruct (JSON_parse text) as [raw | ]; [ | reflexivity ].
  destruct (new_Uint8Array raw); reflexivity.
Qed.

Lemma saveKeypairToFile_run (keypair : Keypair) (fileName : string)
  (dirName : option string) (w : KeyWorld FS) :
  let dir := default DEFAULT_KEY_DIR_NAME dirName in
  let path := path_join dir (fileName +:+ ".json") in
  saveKeypair keypair fileName dirName w
  = match ensureDirExists existsSync mkdirSync dir w with
    | (Throw t, w1) => (Throw t, w1)
    | (Normal _, w1) =>
        match writeFileSync (disk w1) path
                (JSON_stringify (Array_from (secretKey keypair)) None) with
        | (Normal _, disk') => (Normal path, on_disk w1 disk')
        | (Throw t, disk') => (Throw t, on_disk w1 disk')
        end
    end.
Proof.
  cbn zeta. unfold saveKeypairToFile. unfold ebind at 1.
  destruct (ensureDirExists _ _ _ w) as [[[] | t] w1]; [ | reflexivity ].
  unfold ebind, fs_writeFileSync, eret, on_disk.
  destruct (writeFileSync (disk w1) _ _) as [[[] | t] disk']; reflexivity.
Qed.

Lemma saveKeypairToFile_generated (keypair : Keypair) (fileName : string)
  (dirName : option string) (w : KeyWorld FS) :
  generated (snd (saveKeypair keypair fileName dirName w)) = generated w.
Proof.
  rewrite saveKeypairToFile_run, ensureDirExists_run. cbn zeta.
  destruct (existsSync _ _).
  - destruct (writeFileSync _ _ _) as [[[] | ] d]; reflexivity.
  - destruct (mkdirSync _ _) as [[[] | ] d0]; cbn [fst snd]; [ | reflexivity ].
    destruct (writeFileSync _ _ _) as [[[] | ] d]; reflexivity.
Qed.

Lemma loadOrGenerateKeypair_run (fileName : string) (dirName : option string)
  (w : KeyWorld FS) :
  let dir := default DEFAULT_KEY_DIR_NAME dirName in
  let path := path_join dir (fileName +:+ ".json") in
  let fresh := Keypair_generate (generated w) in
  loadOrGenerate fileName dirName w
  = if existsSync (disk w) path then loadKeypair path w
    else
      match saveKeypair fresh fileName (Some dir)
              {| disk := disk w; console := console w;
                 generated := S (generated w) |} with
      | (Normal _, w') => (Normal fresh, w')
      | (Throw t, w') => (Throw t, w')
      end.
Proof.
  cbn zeta. unfold loadOrGenerateKeypair, ebind, fs_existsSync, generate, eret.
  destruct (existsSync (disk w) _); [ reflexivity | ].
  destruct (saveKeypairToFile _ _ _ _ _ _ _ _ _ _) as [[saved | t] w'];
    reflexivity.
Qed.

(** [loadKeypairFromFile] only reads: whatever it completes with, the world
    is the one it started in.  On a missing file it throws "Keypair file
    does not exist", where [loadPublicKeysFromFile] returns an empty
    record. *)
Theorem loadKeypair_reads_only (absPath : string) (w : KeyWorld FS) :
  snd (loadKeypair absPath w) = w
  /\ (existsSync (disk w) absPath = false ->
      fst (loadKeypair absPath w)
      = Throw (ThrownError (Error "Keypair file does not exist"))
      /\ load (Some absPath) w = (Normal ∅, w)).
Proof.
  rewrite loadKeypairFromFile_run, loadPublicKeysFromFile_run. cbn [snd fst from_option]; unfold Datatypes.id.
  split; [ reflexivity | ]. intros ->. split; reflexivity.
Qed.

Section PlatformLaws.

(** What the round trips rest on: a file that was written is there and
    reads back as written; [JSON.parse] undoes [JSON.stringify] on the
    values the helpers write; the [PublicKey] constructor undoes
    [toBase58]; [Keypair.fromSecretKey] gives back the keypair of a secret
    key, through [Array.from] and [new Uint8Array]. *)
Hypothesis write_then_read :
  forall disk path text disk',
    writeFileSync disk path text = (Normal tt, disk') ->
    existsSync disk' path = true /\ readFileSync disk' path = Normal text.
Hypothesis parse_stringify_keys :
  forall record : gmap string PublicKey,
    JSON_parse (JSON_stringify
                  (JObj ((fun v => JStr (toBase58 v)) <$> record)) (Some 2))
    = Normal (JObj ((fun v => JStr (toBase58 v)) <$> record)).
Hypothesis key_of_base58 :
  forall key, new_PublicKey (JStr (toBase58 key)) = Normal key.
Hypothesis parse_stringify_bytes :
  forall bytes,
    JSON_parse (JSON_stringify (Array_from bytes) None) = Normal (Array_from bytes).
Hypothesis bytes_of_array :
  forall bytes, new_Uint8Array (Array_from bytes) = Normal bytes.
Hypothesis keypair_of_secretKey :
  forall keypair, Keypair_fromSecretKey (secretKey keypair) = Normal keypair.

Lemma parse_saved (record : gmap string PublicKey) :
  record !! "__proto__" = None ->
  parse (map_to_list ((fun v => JStr (toBase58 v)) <$> record)) ∅ = Normal record.
Proof.
  intros Hproto.
  set (l := map_to_list ((fun v => JStr (toBase58 v)) <$> record)).
  assert (Hl : forall k v, In (k, v) l <->
                 exists key, record !! k = Some key /\ v = JStr (toBase58 key)).
  { intros k v. unfold l.
    rewrite <- list_elem_of_In, elem_of_map_to_list, lookup_fmap.
    destruct (record !! k) as [key | ]; cbn; split.
    - intros [= <-]. eauto.
    - intros (key' & [= <-] & ->). reflexivity.
    - discriminate.
    - intros (key' & H & _). discriminate H. }
  destruct (parse_entries_Normal l ∅) as [m Hm].
  { intros k v Hin. apply Hl in Hin as (key & _ & ->).
    exists key. apply key_of_base58. }
  rewrite Hm. f_equal. apply map_eq. intros k.
  apply option_eq. intros key.
  rewrite (parse_entries_lookup l ∅ m); [ | | exact Hm ].
  - rewrite lookup_empty. split.
    + intros [(_ & v & Hin & Hkey) | [_ H]]; [ | discriminate H ].
      apply Hl in Hin as (key' & Hrec & ->).
      rewrite key_of_base58 in Hkey. congruence.
    + intros Hrec. left. split; [ intros ->; congruence | ].
      exists (JStr (toBase58 key)). split; [ apply Hl; eauto | apply key_of_base58 ].
  - unfold l. rewrite <- fmap_fst_map. apply NoDup_fst_map_to_list.
Qed.

(** X15: Save, then load: when [savePublicKeyToFile] returns a record that holds
    the key it was given (so it did not fail), [loadPublicKeysFromFile] on
    the same path returns that very record, the entries that were in the
    file before included, and changes nothing. *)
Theorem savePublicKey_then_load (name : string) (publicKey : PublicKey)
  (absPath : option string) (w w' : KeyWorld FS)
  (data : gmap string PublicKey) :
  save name publicKey absPath w = (Normal data, w') ->
  data !! name = Some publicKey ->
  load absPath w' = (Normal data, w').
Proof.
  rewrite savePublicKeyToFile_run. cbn zeta.
  set (path := default _ absPath).
  destruct (ensureDirExists _ _ _ w) as [[[] | t] w1];
    [ | intros [= <- _]; rewrite lookup_empty; discriminate ].
  destruct (load (Some path) w1) as [[loaded | t] w2] eqn:Hload;
    [ | intros [= <- _]; rewrite lookup_empty; discriminate ].
  destruct (writeFileSync (disk w2) path _) as [[[] | t] disk'] eqn:Hwrite;
    [ | intros [= <- _]; rewrite lookup_empty; discriminate ].
  intros [= <- <-] Hname.
  destruct (write_then_read _ _ _ _ Hwrite) as [Hthere Hread].
  rewrite loadPublicKeysFromFile_run. fold path. cbn [on_disk disk].
  rewrite Hthere. unfold read_keys. cbn [on_disk disk]. rewrite Hread. cbn [cbind].
  rewrite parse_stringify_keys. cbn [cbind Object_entries].
  rewrite parse_saved; [ reflexivity | ].
  rewrite lookup_assign.
  destruct (decide _) as [[E H] | _]; [ destruct (H (eq_sym E)) | ].
  apply (loadPublicKeys_no_proto _ _ _ _ Hload).
Qed.

(** X16: Saving over a file that does not load: when the key file is there but
    cannot be read as a record of keys (it is not JSON, or one value is not
    a key) and the write succeeds, the file is replaced by one that holds
    the new key alone; what the old file held is gone. *)
Theorem savePublicKey_replaces_unreadable (name : string)
  (publicKey : PublicKey) (absPath : option string) (w : KeyWorld FS)
  (t : Thrown) (disk' : FS) :
  let path :=
    default (path_join DEFAULT_KEY_DIR_NAME DEFAULT_PUBLIC_KEY_FILE) absPath in
  let w' := on_disk (warned w "Failed to load public keys:") disk' in
  name <> "__proto__" ->
  existsSync (disk w) (path_dirname path) = true ->
  existsSync (disk w) path = true ->
  read_keys' w path = Throw t ->
  writeFileSync (disk w) path
    (JSON_stringify
       (JObj ((fun v => JStr (toBase58 v)) <$> {[ name := publicKey ]})) (Some 2))
  = (Normal tt, disk') ->
  save name publicKey absPath w = (Normal {[ name := publicKey ]}, w')
  /\ load absPath w' = (Normal {[ name := publicKey ]}, w').
Proof.
  cbn zeta. set (path := default _ absPath).
  intros Hname Hdir Hfile Hkeys Hwrite.
  assert (Hsave : save name publicKey absPath w
                  = (Normal {[ name := publicKey ]},
                     on_disk (warned w "Failed to load public keys:") disk')).
  { rewrite savePublicKeyToFile_run, ensureDirExists_run. cbn zeta. fold path.
    rewrite Hdir, loadPublicKeysFromFile_run. cbn [from_option]; unfold Datatypes.id.
    rewrite Hfile, Hkeys. cbn [warned disk].
    assert (Hdata : assign name publicKey (∅ : gmap string PublicKey)
                    = {[ name := publicKey ]}).
    { unfold assign. destruct (String.eqb_spec name "__proto__") as [E | _];
        [ destruct (Hname E) | apply insert_empty ]. }
    rewrite Hdata, Hwrite. reflexivity. }
  split; [ exact Hsave | ].
  apply (savePublicKey_then_load name publicKey absPath w _ _ Hsave).
  apply lookup_singleton_eq.
Qed.

(** X17: A keypair that was saved loads back: after [saveKeypairToFile] returns
    a path, [loadKeypairFromFile] on that path returns the same keypair. *)
Theorem saveKeypair_then_load (keypair : Keypair) (fileName : string)
  (dirName : option string) (w w' : KeyWorld FS) (path : string) :
  saveKeypair keypair fileName dirName w = (Normal path, w') ->
  path = path_join (default DEFAULT_KEY_DIR_NAME dirName) (fileName +:+ ".json")
  /\ loadKeypair path w' = (Normal keypair, w').
Proof.
  rewrite saveKeypairToFile_run. cbn zeta.
  destruct (ensureDirExists _ _ _ w) as [[[] | t] w1]; [ | discriminate ].
  destruct (writeFileSync (disk w1) _ _) as [[[] | t] disk'] eqn:Hwrite;
    [ | discriminate ].
  intros [= <- <-]. split; [ reflexivity | ].
  destruct (write_then_read _ _ _ _ Hwrite) as [Hthere Hread].
  rewrite loadKeypairFromFile_run. cbn [on_disk disk].
  rewrite Hthere, Hread. cbn [cbind].
  rewrite parse_stringify_bytes. cbn [cbind].
  rewrite bytes_of_array. cbn [cbind].
  rewrite keypair_of_secretKey. reflexivity.
Qed.

(** X18: [loadOrGenerateKeypair] is stable: once it has returned a keypair, a
    second call with the same name returns the same keypair and changes
    nothing, whether the first call loaded the keypair or generated it. *)
Theorem loadOrGenerate_stable (fileName : string) (dirName : option string)
  (w w' : KeyWorld FS) (keypair : Keypair) :
  loadOrGenerate fileName dirName w = (Normal keypair, w') ->
  loadOrGenerate fileName dirName w' = (Normal keypair, w').
Proof.
  rewrite !loadOrGenerateKeypair_run. cbn zeta.
  set (dir := default DEFAULT_KEY_DIR_NAME dirName).
  set (path := path_join dir (fileName +:+ ".json")).
  destruct (existsSync (disk w) path) eqn:Hthere.
  - intros Hload.
    assert (Hw : w' = w)
      by (rewrite loadKeypairFromFile_run in Hload; congruence).
    subst w'. rewrite Hthere. exact Hload.
  - destruct (saveKeypair _ fileName (Some dir) _) as [[saved | t] w2] eqn:Hsave;
      [ | discriminate ].
    intros [= <- <-].
    destruct (saveKeypair_then_load _ _ _ _ _ _ Hsave) as [Hpath Hload].
    cbn [from_option] in Hpath; unfold Datatypes.id in Hpath.
    fold path in Hpath. subst saved.
    assert (Hnow : existsSync (disk w2) path = true).
    { rewrite loadKeypairFromFile_run in Hload.
      destruct (existsSync (disk w2) path); [ reflexivity | discriminate Hload ]. }
    rewrite Hnow. exact Hload.
Qed.

End PlatformLaws.

(** X19: [loadOrGenerateKeypair] generates only when the file is missing.  When
    the file is there, it is [loadKeypairFromFile] on it: no keypair is
    generated and the disk is not written, even if the file does not hold a
    keypair and the call throws.  When the file is missing, the keypair
    returned is the freshly generated one, and it is returned only if it
    could be saved. *)
Theorem loadOrGenerate_generates_when_missing (fileName : string)
  (dirName : option string) (w : KeyWorld FS) :
  let dir := default DEFAULT_KEY_DIR_NAME dirName in
  let path := path_join dir (fileName +:+ ".json") in
  (existsSync (disk w) path = true ->
   loadOrGenerate fileName dirName w = (fst (loadKeypair path w), w))
  /\ (existsSync (disk w) path = false ->
      forall keypair w',
        loadOrGenerate fileName dirName w = (Normal keypair, w') ->
        keypair = Keypair_generate (generated w)
        /\ generated w' = S (generated w)
        /\ exists w1 saved,
             saveKeypair keypair fileName (Some dir) w1 = (Normal saved, w')).
Proof.
  cbn zeta. rewrite loadOrGenerateKeypair_run. cbn zeta.
  set (dir := default DEFAULT_KEY_DIR_NAME dirName).
  set (path := path_join dir (fileName +:+ ".json")).
  split; intros ->.
  - rewrite loadKeypairFromFile_run. reflexivity.
  - intros keypair w'.
    destruct (saveKeypair _ fileName (Some dir) _) as [[saved | t] w2] eqn:Hsave;
      [ | discriminate ].
    intros [= <- <-]. split; [ reflexivity | ]. split.
    + pose proof (saveKeypairToFile_generated
                    (Keypair_generate (generated w)) fileName (Some dir)
                    {| disk := disk w; console := console w;
                       generated := S (generated w) |}) as Hg.
      rewrite Hsave in Hg. exact Hg.
    + eauto.
Qed.

End KeyFileFacts.

(* ===================================================================== *)
(** ** The key files on the stand-in platform *)
(* ===================================================================== *)

Lemma Platform_write_then_read (disk : gmap string Platform.Text)
  (path : string) (text : Platform.Text) (disk' : gmap string Platform.Text) :
  Platform.writeFileSync disk path text = (Normal tt, disk') ->
  Platform.existsSync disk' path = true
  /\ Platform.readFileSync disk' path = Normal text.
Proof.
  unfold Platform.writeFileSync, Platform.existsSync, Platform.readFileSync.
  intros [= <-]. rewrite lookup_insert_eq. split; [ | reflexivity ].
  apply bool_decide_eq_true. eauto.
Qed.

Lemma Platform_bytes_of_array (bytes : list byte) :
  Platform.new_Uint8Array (Array_from bytes) = Normal bytes.
Proof.
  unfold Platform.new_Uint8Array, Array_from. f_equal.
  induction bytes as [ | b bytes IH]; cbn [map]; [ reflexivity | ].
  rewrite IH. f_equal.
  rewrite N2Z.id, N.mod_small.
  - rewrite <- ascii_of_byte_via_N. apply byte_of_ascii_of_byte.
  - pose proof (Byte.to_N_bounded b). lia.
Qed.

(** The world in which "keys.json" holds [treeAddress] and a second entry. *)
Lemma loadPublicKeys_all_or_nothing_witness :
  let file (second : JsValue) : KeyWorld (gmap string Platform.Text) :=
    {| disk := {[ ".local_keys/keys.json" :=
                    Platform.Json (JObj {[ "treeAddress" := JStr "Tree1";
                                           "collectionMint" := second ]}) (Some 2) ]};
       console := []; generated := 0 |} in
  (exists keys,
     loadPublicKeysFromFile Platform.existsSync Platform.readFileSync
       Platform.path_join Platform.JSON_parse Platform.new_PublicKey None
       (file (JStr "Mint1")) = (Normal keys, file (JStr "Mint1"))
     /\ keys !! "treeAddress" = Some "Tree1")
  /\ loadPublicKeysFromFile Platform.existsSync Platform.readFileSync
       Platform.path_join Platform.JSON_parse Platform.new_PublicKey None
       (file (JNum 7))
     = (Normal ∅, warned (file (JNum 7)) "Failed to load public keys:").
Proof.
  cbn zeta. split.
  - destruct (loadPublicKeys_all_or_nothing
                Platform.existsSync Platform.readFileSync Platform.path_join
                Platform.JSON_parse Platform.new_PublicKey None
                {| disk := {[ ".local_keys/keys.json" :=
                     Platform.Json (JObj {[ "treeAddress" := JStr "Tree1";
                                            "collectionMint" := JStr "Mint1" ]}) (Some 2) ]};
                   console := []; generated := 0 |}
                (Platform.Json (JObj {[ "treeAddress" := JStr "Tree1";
                                        "collectionMint" := JStr "Mint1" ]}) (Some 2))
                {[ "treeAddress" := JStr "Tree1"; "collectionMint" := JStr "Mint1" ]})
      as [Hall _]; try (vm_compute; reflexivity).
    destruct Hall as (keys & Hload & Hkeys).
    + intros k v Hv.
      destruct (decide (k = "treeAddress")) as [-> | H1].
      { rewrite lookup_insert_eq in Hv. injection Hv as <-. eexists. reflexivity. }
      rewrite lookup_insert_ne in Hv by congruence.
      destruct (decide (k = "collectionMint")) as [-> | H2].
      { rewrite lookup_singleton_eq in Hv. injection Hv as <-. eexists. reflexivity. }
      rewrite lookup_singleton_ne in Hv by congruence. discriminate Hv.
    + exists keys. split; [ exact Hload | ].
      apply Hkeys. split; [ discriminate | ].
      exists (JStr "Tree1"). split; [ apply lookup_insert_eq | reflexivity ].
  - apply (loadPublicKeys_all_or_nothing
             Platform.existsSync Platform.readFileSync Platform.path_join
             Platform.JSON_parse Platform.new_PublicKey None
             {| disk := {[ ".local_keys/keys.json" :=
                  Platform.Json (JObj {[ "treeAddress" := JStr "Tree1";
                                         "collectionMint" := JNum 7 ]}) (Some 2) ]};
                console := []; generated := 0 |}
             (Platform.Json (JObj {[ "treeAddress" := JStr "Tree1";
                                     "collectionMint" := JNum 7 ]}) (Some 2))
             {[ "treeAddress" := JStr "Tree1"; "collectionMint" := JNum 7 ]});
      try (vm_compute; reflexivity).
    exists "collectionMint", (JNum 7). eexists. split; [ | reflexivity ].
    rewrite lookup_insert_ne by discriminate. apply lookup_singleton_eq.
Defined.

Lemma savePublicKey_then_load_witness :
  exists data w',
    savePublicKeyToFile Platform.existsSync Platform.readFileSync
      Platform.writeFileSync Platform.mkdirSync Platform.path_join
      Platform.path_dirname Platform.JSON_parse Platform.JSON_stringify
      Platform.new_PublicKey Platform.toBase58
      "treeAddress" "Tree1" None Platform.empty = (Normal data, w')
    /\ data !! "treeAddress" = Some "Tree1"
    /\ loadPublicKeysFromFile Platform.existsSync Platform.readFileSync
         Platform.path_join Platform.JSON_parse Platform.new_PublicKey None w'
       = (Normal data, w').
Proof.
  eexists _, _. split; [ vm_compute; reflexivity | ].
  split; [ vm_compute; reflexivity | ].
  apply (savePublicKey_then_load
           Platform.existsSync Platform.readFileSync Platform.writeFileSync
           Platform.mkdirSync Platform.path_join Platform.path_dirname
           Platform.JSON_parse Platform.JSON_stringify Platform.new_PublicKey
           Platform.toBase58 Platform_write_then_read
           (fun _ => eq_refl) (fun _ => eq_refl)
           "treeAddress" "Tree1" None Platform.empty).
  - vm_compute. reflexivity.
  - vm_compute. reflexivity.
Defined.

Lemma savePublicKey_replaces_unreadable_witness :
  let w : KeyWorld (gmap string Platform.Text) :=
    {| disk := {[ "." := Platform.Garbage;
                  ".local_keys/keys.json" := Platform.Garbage ]};
       console := []; generated := 0 |} in
  exists w',
    savePublicKeyToFile Platform.existsSync Platform.readFileSync
      Platform.writeFileSync Platform.mkdirSync Platform.path_join
      Platform.path_dirname Platform.JSON_parse Platform.JSON_stringify
      Platform.new_PublicKey Platform.toBase58
      "treeAddress" "Tree1" None w = (Normal {[ "treeAddress" := "Tree1" ]}, w')
    /\ loadPublicKeysFromFile Platform.existsSync Platform.readFileSync
         Platform.path_join Platform.JSON_parse Platform.new_PublicKey None w'
       = (Normal {[ "treeAddress" := "Tree1" ]}, w').
Proof.
  cbn zeta. eexists.
  eapply (savePublicKey_replaces_unreadable
            Platform.existsSync Platform.readFileSync Platform.writeFileSync
            Platform.mkdirSync Platform.path_join Platform.path_dirname
            Platform.JSON_parse Platform.JSON_stringify Platform.new_PublicKey
            Platform.toBase58 Platform_write_then_read
            (fun _ => eq_refl) (fun _ => eq_refl)
            "treeAddress" "Tree1" None).
  - discriminate.
  - vm_compute. reflexivity.
  - vm_compute. reflexivity.
  - vm_compute. reflexivity.
  - reflexivity.
Defined.

Lemma saveKeypair_then_load_witness :
  exists path w',
    saveKeypairToFile Platform.existsSync Platform.writeFileSync
      Platform.mkdirSync Platform.path_join Platform.JSON_stringify
      Platform.secretKey [x01; xff] "payer" None Platform.empty
    = (Normal path, w')
    /\ path = ".local_keys/payer.json"
    /\ loadKeypairFromFile Platform.existsSync Platform.readFileSync
         Platform.JSON_parse Platform.new_Uint8Array
         Platform.Keypair_fromSecretKey path w'
       = (Normal [x01; xff], w').
Proof.
  eexists _, _. split; [ vm_compute; reflexivity | ].
  apply (saveKeypair_then_load
           Platform.existsSync Platform.readFileSync Platform.writeFileSync
           Platform.mkdirSync Platform.path_join Platform.JSON_parse
           Platform.JSON_stringify Platform.new_Uint8Array
           Platform.Keypair_fromSecretKey Platform.secretKey
           Platform_write_then_read (fun _ => eq_refl)
           Platform_bytes_of_array (fun _ => eq_refl)
           [x01; xff] "payer" None Platform.empty).
  vm_compute. reflexivity.
Defined.

Lemma loadOrGenerate_stable_witness :
  exists keypair w',
    loadOrGenerateKeypair Platform.existsSync Platform.readFileSync
      Platform.writeFileSync Platform.mkdirSync Platform.path_join
      Platform.JSON_parse Platform.JSON_stringify Platform.new_Uint8Array
      Platform.Keypair_fromSecretKey Platform.secretKey
      Platform.Keypair_generate "testWallet" None Platform.empty
    = (Normal keypair, w')
    /\ generated w' = 1%nat
    /\ loadOrGenerateKeypair Platform.existsSync Platform.readFileSync
         Platform.writeFileSync Platform.mkdirSync Platform.path_join
         Platform.JSON_parse Platform.JSON_stringify Platform.new_Uint8Array
         Platform.Keypair_fromSecretKey Platform.secretKey
         Platform.Keypair_generate "testWallet" None w'
       = (Normal keypair, w').
Proof.
  eexists _, _. split; [ vm_compute; reflexivity | ].
  split; [ reflexivity | ].
  apply (loadOrGenerate_stable
           Platform.existsSync Platform.readFileSync Platform.writeFileSync
           Platform.mkdirSync Platform.path_join Platform.JSON_parse
           Platform.JSON_stringify Platform.new_Uint8Array
           Platform.Keypair_fromSecretKey Platform.secretKey
           Platform.Keypair_generate
           Platform_write_then_read (fun _ => eq_refl)
           Platform_bytes_of_array (fun _ => eq_refl)
           "testWallet" None Platform.empty).
  vm_compute. reflexivity.
Defined.

(* ===================================================================== *)
(** ** The airdrop *)
(* ===================================================================== *)

(** X20: [airdropOnLowBalance] asks for the balance once, and then for one
    airdrop of exactly one SOL when it is forced or the balance is below
    half a SOL (a balance of exactly half a SOL asks for none).  What it
    returns is the balance it read before the airdrop, and it returns
    unless the airdrop it asked for failed. *)
Theorem airdrop_on_low_balance
  {PublicKey : Type} (toBase58 : PublicKey -> string)
  (getBalance : list (ConnectionCall PublicKey) -> PublicKey -> Completion Z)
  (requestAirdrop :
     list (ConnectionCall PublicKey) -> PublicKey -> Z -> Completion string)
  (publicKey : PublicKey) (forceAirdrop : option bool)
  (w : RpcWorld PublicKey) (balance : Z) :
  getBalance (calls w) publicKey = Normal balance ->
  let run :=
    airdropOnLowBalance toBase58 getBalance requestAirdrop publicKey
      forceAirdrop w in
  let needed := default false forceAirdrop || (balance <? 500000000) in
  calls (snd run)
    = (calls w ++ CallGetBalance publicKey
         :: (if needed then [CallRequestAirdrop publicKey 1000000000] else []))%list
  /\ (forall v, fst run = Normal v -> v = balance)
  /\ (fst run = Normal balance
      <-> needed = false
          \/ exists signature,
               requestAirdrop (calls w ++ [CallGetBalance publicKey])%list
                 publicKey 1000000000 = Normal signature).
Proof.
  intros Hbalance. cbn zeta.
  unfold airdropOnLowBalance, ebind, connection_getBalance,
    connection_requestAirdrop, console_log, eret. cbn zeta.
  rewrite Hbalance. cbn [calls printed].
  change (LAMPORTS_PER_SOL / 2) with 500000000.
  change LAMPORTS_PER_SOL with 1000000000.
  destruct (default false forceAirdrop || (balance <? 500000000)).
  - cbn [calls printed].
    destruct (requestAirdrop _ publicKey 1000000000) as [signature | t];
      cbn [calls printed fst snd].
    + rewrite <- app_assoc. split; [ reflexivity | ].
      split; [ intros v [= <-]; reflexivity | ].
      split; [ eauto | reflexivity ].
    + rewrite <- app_assoc. split; [ reflexivity | ].
      split; [ discriminate | ].
      split; [ discriminate | intros [H | [s H]]; discriminate H ].
  - cbn [calls printed fst snd]. split; [ reflexivity | ].
    split; [ intros v [= <-]; reflexivity | ].
    split; [ auto | reflexivity ].
Qed.

Lemma airdrop_on_low_balance_witness :
  let run :=
    airdropOnLowBalance (fun k : string => k)
      (fun _ _ => Normal 499999999) (fun _ _ _ => Normal "5sig")
      "Payer1" None {| calls := []; printed := [] |} in
  calls (snd run) = [CallGetBalance "Payer1"; CallRequestAirdrop "Payer1" 1000000000]
  /\ fst run = Normal 499999999.
Proof.
  cbn zeta.
  destruct (airdrop_on_low_balance (fun k : string => k)
              (fun _ _ => Normal 499999999) (fun _ _ _ => Normal "5sig")
              "Payer1" None {| calls := []; printed := [] |} 499999999 eq_refl)
    as (Hcalls & _ & Hreturn).
  split; [ exact Hcalls | ]. apply Hreturn. right. eexists. reflexivity.
Defined.
